(** * Heatmap analyzer backend: context aggregation and conversation orchestration

    A shallow embedding of
      - [services/data_exporter.py]  (DataExporter.export_to_json,
                                      DataExporter.get_context_summary),
      - [services/ollama_service.py] (OllamaService.check_health,
                                      OllamaService.generate_response),
      - [api/models/chat.py]         (ChatMessage, DataContext, ChatRequest),
      - [api/routes/chat.py]         (send_message),
    followed by the properties the specification states about them.

    Conventions of the embedding.
      - A Python [float] is an exact rational ([Qc]); a float64 cell of a data
        frame is [option Qc], where [None] is NaN.  Rounding, overflow and
        infinities are outside the model.
      - A Python exception is a value of [exn]; code that can raise returns
        [Result A = exn + A].
      - Calls that leave the process (the data cache, the inference engine) are
        recorded in a log of [access]es, threaded by the monad [M]. *)

From Stdlib Require Import QArith Qcanon Lia.
From stdpp Require Import base numbers list sorting gmap strings pretty.

Local Open Scope Z_scope.

(* ===================================================================== *)
(** * Python values, exceptions and effects                               *)
(* ===================================================================== *)

(** The dynamically typed values the services inspect.  [PFloat None] is
    the float NaN. *)
#[warnings="-register-all"]
Inductive pyval : Type :=
| PNone
| PInt (z : Z)
| PFloat (x : option Qc)
| PStr (s : string)
| PList (l : list pyval)
| PDict (d : gmap string pyval).

Inductive exn : Type :=
| KeyError (k : string)
| TypeError (msg : string)
| AttributeError (msg : string)
| ValueError (msg : string)
| ConnectionError (msg : string)
| ValidationError (msg : string)
| HTTPException (status_code : Z) (detail : string)
| Exception (msg : string).

(** [str(e)] *)
Definition str_of_exn (e : exn) : string :=
  match e with
  | KeyError k => "'" +:+ k +:+ "'"
  | TypeError m | AttributeError m | ValueError m | ConnectionError m
  | ValidationError m | Exception m => m
  | HTTPException c d => pretty c +:+ ": " +:+ d
  end.

Definition Result (A : Type) : Type := exn + A.

Definition rbind {A B} (r : Result A) (f : A -> Result B) : Result B :=
  match r with
  | inl e => inl e
  | inr a => f a
  end.

Fixpoint rmapM {A B} (f : A -> Result B) (l : list A) : Result (list B) :=
  match l with
  | [] => inr []
  | x :: l' => rbind (f x) (fun y => rbind (rmapM f l') (fun ys => inr (y :: ys)))
  end.

Declare Scope result_scope.
Delimit Scope result_scope with result.
Notation "'let*' x ':=' e 'in' k" := (rbind e (fun x => k))
  (at level 10, x name, e at level 100, k at level 200) : result_scope.

(** [d.get(k, dflt)] *)
Definition dict_get (d : gmap string pyval) (k : string) (dflt : pyval) : pyval :=
  default dflt (d !! k).

(** [d[k]] *)
Definition dict_getitem (d : gmap string pyval) (k : string) : Result pyval :=
  match d !! k with
  | Some v => inr v
  | None => inl (KeyError k)
  end.

(** [v[k]] for a string key on an arbitrary value. *)
Definition subscript (v : pyval) (k : string) : Result pyval :=
  match v with
  | PDict d => dict_getitem d k
  | PStr _ | PList _ => inl (TypeError "indices must be integers")
  | _ => inl (TypeError "object is not subscriptable")
  end.

Definition float_add (x y : option Qc) : option Qc :=
  match x, y with
  | Some a, Some b => Some (a + b)%Qc
  | _, _ => None
  end.

Definition float_of_int (z : Z) : option Qc := Some (Q2Qc (inject_Z z)).

(** [a + b] *)
Definition py_add (a b : pyval) : Result pyval :=
  match a, b with
  | PInt x, PInt y => inr (PInt (x + y))
  | PInt x, PFloat y => inr (PFloat (float_add (float_of_int x) y))
  | PFloat x, PInt y => inr (PFloat (float_add x (float_of_int y)))
  | PFloat x, PFloat y => inr (PFloat (float_add x y))
  | PStr x, PStr y => inr (PStr (x +:+ y))
  | PList x, PList y => inr (PList (x ++ y))
  | _, _ => inl (TypeError "unsupported operand type(s) for +")
  end.

(** [s == v] for a string [s] *)
Definition str_eqb (s : string) (v : pyval) : bool :=
  match v with
  | PStr s' => bool_decide (s = s')
  | _ => false
  end.

(** The characters of a string, each as a string (a string being held as
    its bytes, one item per byte). *)
Fixpoint chars (s : string) : list pyval :=
  match s with
  | EmptyString => []
  | String a s' => PStr (String a EmptyString) :: chars s'
  end.

(** What [for x in v] runs over: the items of a list, the keys of a dict
    (their order plays no role below), the characters of a string; None and
    numbers cannot be iterated. *)
Definition py_iter (v : pyval) : Result (list pyval) :=
  match v with
  | PList l => inr l
  | PDict d => inr (map (fun kv => PStr (fst kv)) (map_to_list d))
  | PStr s => inr (chars s)
  | PNone | PInt _ | PFloat _ => inl (TypeError "object is not iterable")
  end.

(** [l[start:]] for a possibly negative [start]. *)
Definition slice_from {A} (start : Z) (l : list A) : list A :=
  let n := Z.of_nat (length l) in
  let i := if start <? 0 then Z.max 0 (n + start) else Z.min start n in
  drop (Z.to_nat i) l.

(** ** What leaves the process *)

(** One entry of the list sent to the engine: [{"role": .., "content": ..}]. *)
Record Message : Type := mkMessage {
  role : string;
  content : string
}.

(** (month, hour, day_type): the key of the data cache. *)
Definition FilterKey : Type := Z * Z * string.

Inductive access : Type :=
| CacheLookup (key : FilterKey)
| EngineList
| EngineChat (model : string) (messages : list Message).

(** A computation: the accesses it made, in order, and how it ended. *)
Definition M (A : Type) : Type := list access * Result A.

Definition ret {A} (a : A) : M A := ([], inr a).
Definition raise {A} (e : exn) : M A := ([], inl e).
Definition lift {A} (r : Result A) : M A := ([], r).

(** An outside call that answers [r]. *)
Definition call {A} (a : access) (r : Result A) : M A := ([a], r).

Definition bind {A B} (m : M A) (f : A -> M B) : M B :=
  match m with
  | (t, inl e) => (t, inl e)
  | (t, inr a) => let '(t', r) := f a in (t ++ t', r)
  end.

(** [try: m  except Exception as e: h e] *)
Definition try_except {A} (m : M A) (h : exn -> M A) : M A :=
  match m with
  | (t, inl e) => let '(t', r) := h e in (t ++ t', r)
  | (t, inr a) => (t, inr a)
  end.

Declare Scope m_scope.
Delimit Scope m_scope with M.
Notation "'do' x '<-' e ';' k" := (bind e (fun x => k))
  (at level 10, x name, e at level 100, k at level 200) : m_scope.

(* ===================================================================== *)
(** * services/data_exporter.py                                           *)
(* ===================================================================== *)

Module DataExporter.
Local Open Scope Qc_scope.
Local Open Scope result_scope.

(** ** The pandas fragment the exporter uses *)

(** A float64 cell; [None] is NaN. *)
Definition cell : Type := option Qc.

(** The numeric columns of the heatmap table ([age_ i] is the column
    [f'age_{i}']), and the one text column. *)
Inductive ncol : Type :=
| month | gx | gy | lat | lng | lon | hour
| avg_total_users
| avg_users_under_10min | avg_users_10_30min | avg_users_over_30min
| sex_1 | sex_2
| age_ (i : nat)
| age_other.

Inductive column : Type :=
| Num (c : ncol)
| day_type.

Global Instance ncol_eq_dec : EqDecision ncol.
Proof. solve_decision. Defined.
Global Instance column_eq_dec : EqDecision column.
Proof. solve_decision. Defined.

Definition ncol_name (c : ncol) : string :=
  match c with
  | month => "month" | gx => "gx" | gy => "gy" | lat => "lat"
  | lng => "lng" | lon => "lon" | hour => "hour"
  | avg_total_users => "avg_total_users"
  | avg_users_under_10min => "avg_users_under_10min"
  | avg_users_10_30min => "avg_users_10_30min"
  | avg_users_over_30min => "avg_users_over_30min"
  | sex_1 => "sex_1" | sex_2 => "sex_2"
  | age_ i => "age_" +:+ pretty i
  | age_other => "age_other"
  end.

Definition col_name (c : column) : string :=
  match c with
  | Num c => ncol_name c
  | day_type => "day_type"
  end.

(** One row of a frame: its numeric cells and its [day_type] cell.  The
    frame's [columns] say which of them exist. *)
Record Row : Type := mkRow {
  num : ncol -> cell;
  day_type_cell : option string
}.

Record DataFrame : Type := mkDataFrame {
  columns : list column;
  rows : list Row
}.

(** [col in df.columns] *)
Definition has_col (df : DataFrame) (c : column) : bool :=
  bool_decide (c ∈ columns df).

(** [df.empty]: one of the two axes has length 0. *)
Definition empty (df : DataFrame) : bool :=
  match rows df, columns df with
  | [], _ | _, [] => true
  | _, _ => false
  end.

(** [len(df)] *)
Definition len (df : DataFrame) : nat := length (rows df).

(** [df[c]] for a numeric column: the Series of its cells. *)
Definition getcol (df : DataFrame) (c : ncol) : Result (list cell) :=
  if has_col df (Num c) then inr (map (fun r => num r c) (rows df))
  else inl (KeyError (ncol_name c)).

(** [Series.sum()] with the default [skipna=True]. *)
Definition Series_sum (s : list cell) : cell :=
  Some (foldr (fun c acc => match c with Some q => q + acc | None => acc end) 0 s).

Definition cell_mul (a b : cell) : cell :=
  match a, b with
  | Some x, Some y => Some (x * y)
  | _, _ => None
  end.

(** float division; a zero divisor gives no number. *)
Definition cell_div (a b : cell) : cell :=
  match a, b with
  | Some x, Some y => if decide (y = 0) then None else Some (x / y)
  | _, _ => None
  end.

(** [x > 0]; false on NaN. *)
Definition gt0 (a : cell) : bool :=
  match a with
  | Some x => bool_decide (0 < x)
  | None => false
  end.

(** [series * values], element by element. *)
Definition Series_mul (s w : list cell) : list cell := zip_with cell_mul s w.

(** [df.rename(columns={old: new})] *)
Definition rename (old new : ncol) (df : DataFrame) : DataFrame :=
  {| columns := map (fun c => if decide (c = Num old) then Num new else c) (columns df);
     rows := map (fun r =>
               {| num := fun c => if decide (c = new) then num r old else num r c;
                  day_type_cell := day_type_cell r |}) (rows df) |}.

(** Stable descending insertion: [x] stood before every element of [l] in
    the frame, so it passes only the strictly larger ones. *)
Fixpoint insert_desc {A} (key : A -> Qc) (x : A) (l : list A) : list A :=
  match l with
  | [] => [x]
  | y :: l' =>
      if decide (key x < key y) then y :: insert_desc key x l'
      else x :: y :: l'
  end.

Definition sort_desc {A} (key : A -> Qc) (l : list A) : list A :=
  foldr (insert_desc key) [] l.

(** [df.nlargest(n, c)] with the default [keep='first'], as pandas documents
    and implements it: the rows without a number in [c] are set aside, the
    others are ordered by [c], largest first, rows with equal values in frame
    order; the rows set aside follow in frame order, and the first [n] rows of
    the whole are returned. *)
Definition nlargest (n : nat) (c : ncol) (df : DataFrame) : Result (list Row) :=
  if has_col df (Num c) then
    let dropped := filter (fun r => is_Some (num r c)) (rows df) in
    let nan_index := filter (fun r => ¬ is_Some (num r c)) (rows df) in
    inr (take n (sort_desc (fun r => default 0 (num r c)) dropped ++ nan_index))
  else inl (KeyError (ncol_name c)).

(** ** [DataExporter.export_to_json] *)

Definition required_cols : list column :=
  [ Num month; Num gx; Num gy; Num lat; Num lng; Num hour; day_type;
    Num avg_total_users; Num avg_users_under_10min; Num avg_users_10_30min;
    Num avg_users_over_30min;
    Num sex_1; Num sex_2;
    Num (age_ 1); Num (age_ 2); Num (age_ 3); Num (age_ 4); Num (age_ 5);
    Num (age_ 6); Num (age_ 7); Num (age_ 8); Num (age_ 9); Num age_other ].

(** The value a row holds in a column, as [to_dict('records')] hands it
    over. *)
Definition cell_value (r : Row) (c : column) : pyval :=
  match c with
  | Num c => PFloat (num r c)
  | day_type => match day_type_cell r with Some s => PStr s | None => PNone end
  end.

(** [df[cols].to_dict('records')]: one key-ordered dict per row.  Selecting
    columns the frame does not have raises KeyError; of its argument, which
    in pandas is a sentence listing the missing columns, only the first
    missing column is kept. *)
Definition to_dict_records (df : DataFrame) (cols : list column)
  : Result (list (list (string * pyval))) :=
  let* _ := rmapM (fun c => if has_col df c then inr c
                            else inl (KeyError (col_name c))) cols in
  inr (map (fun r => map (fun c => (col_name c, cell_value r c)) cols) (rows df)).

(** [pd.isna(value)] *)
Definition isna (v : pyval) : bool :=
  match v with
  | PNone | PFloat None => true
  | _ => false
  end.

(** [isinstance(value, (int, float))] *)
Definition is_int_or_float (v : pyval) : bool :=
  match v with
  | PInt _ | PFloat _ => true
  | _ => false
  end.

(** The body of the loop over [record.items()]; [value.item()] turns a numpy
    scalar into the Python number of the same value. *)
Definition convert_value (value : pyval) : pyval :=
  if isna value then
    (if is_int_or_float value then PFloat (Some 0) else PNone)
  else value.

Definition export_to_json (lookup_dict : gmap FilterKey DataFrame)
    (month_ hour_ : Z) (day_type_ : string) : Result (list (list (string * pyval))) :=
  match lookup_dict !! (month_, hour_, day_type_) with
  | None => inr []
  | Some filtered_df =>
      if empty filtered_df then inr []
      else
        let filtered_df :=
          if negb (has_col filtered_df (Num lng)) && has_col filtered_df (Num lon)
          then rename lon lng filtered_df else filtered_df in
        let* data_records := to_dict_records filtered_df required_cols in
        inr (map (map (fun kv => (fst kv, convert_value (snd kv)))) data_records)
  end.

(** ** [DataExporter.get_context_summary] *)

Record Duration : Type := mkDuration {
  under_10min : cell;
  min_10_30 : cell;
  over_30min : cell
}.

Record Gender : Type := mkGender {
  male_pct : cell;
  female_pct : cell
}.

Record Location : Type := mkLocation {
  loc_lat : cell;
  loc_lon : cell;
  loc_total_users : cell;
  loc_under_10min : cell;
  loc_10_30min : cell;
  loc_over_30min : cell
}.

Record Summary : Type := mkSummary {
  total_records : nat;
  total_users : cell;
  duration_distribution : Duration;
  gender_distribution : Gender;
  age_distribution : list (ncol * cell);
  top_locations : list Location
}.

(** The dict returned when the lookup gives nothing. *)
Definition zero_summary : Summary :=
  {| total_records := 0;
     total_users := Some 0;
     duration_distribution :=
       {| under_10min := Some 0; min_10_30 := Some 0; over_30min := Some 0 |};
     gender_distribution := {| male_pct := Some 0; female_pct := Some 0 |};
     age_distribution :=
       [ (age_ 1, Some 0); (age_ 2, Some 0); (age_ 3, Some 0); (age_ 4, Some 0);
         (age_ 5, Some 0); (age_ 6, Some 0); (age_ 7, Some 0); (age_ 8, Some 0);
         (age_ 9, Some 0); (age_other, Some 0) ];
     top_locations := [] |}.

(** [float(df[c].sum()) if c in df.columns else 0.0] *)
Definition column_total (df : DataFrame) (c : ncol) : Result cell :=
  if has_col df (Num c) then
    let* s := getcol df c in inr (Series_sum s)
  else inr (Some 0).

(** [float((df[c] * weights).sum() / total_users)] *)
Definition weighted_pct (df : DataFrame) (weights : list cell)
    (total_users_ : cell) (c : ncol) : Result cell :=
  let* s := getcol df c in
  inr (cell_div (Series_sum (Series_mul s weights)) total_users_).

(** The same, guarded by [c in df.columns and total_users > 0]. *)
Definition age_pct (df : DataFrame) (weights : list cell)
    (total_users_ : cell) (c : ncol) : Result cell :=
  if has_col df (Num c) && gt0 total_users_
  then weighted_pct df weights total_users_ c
  else inr (Some 0).

(** [row[c]] and [row.get(c, 0)] on a row of the frame [df]. *)
Definition row_getitem (df : DataFrame) (r : Row) (c : ncol) : Result cell :=
  if has_col df (Num c) then inr (num r c) else inl (KeyError (ncol_name c)).

Definition row_get (df : DataFrame) (r : Row) (c : ncol) (dflt : Qc) : cell :=
  if has_col df (Num c) then num r c else Some dflt.

(** The dict appended to [top_locations] for one row. *)
Definition location_of (df : DataFrame) (lng_col : ncol) (r : Row) : Result Location :=
  let* la := row_getitem df r lat in
  let* lo := row_getitem df r lng_col in
  let* tu := row_getitem df r avg_total_users in
  inr {| loc_lat := la;
         loc_lon := lo;
         loc_total_users := tu;
         loc_under_10min := row_get df r avg_users_under_10min 0;
         loc_10_30min := row_get df r avg_users_10_30min 0;
         loc_over_30min := row_get df r avg_users_over_30min 0 |}.

Definition get_context_summary (lookup_dict : gmap FilterKey DataFrame)
    (month_ hour_ : Z) (day_type_ : string) : Result Summary :=
  match lookup_dict !! (month_, hour_, day_type_) with
  | None => inr zero_summary
  | Some filtered_df =>
      if empty filtered_df then inr zero_summary
      else
        let lng_col := if has_col filtered_df (Num lng) then lng else lon in
        let total_records_ := len filtered_df in
        let* total_col := getcol filtered_df avg_total_users in
        let total_users_ := Series_sum total_col in
        let* total_under_10min := column_total filtered_df avg_users_under_10min in
        let* total_10_30min := column_total filtered_df avg_users_10_30min in
        let* total_over_30min := column_total filtered_df avg_users_over_30min in
        let weights := total_col in
        let* avg_sex :=
          (if gt0 total_users_ then
             let* a1 := weighted_pct filtered_df weights total_users_ sex_1 in
             let* a2 := weighted_pct filtered_df weights total_users_ sex_2 in
             inr (a1, a2)
           else inr (Some 0, Some 0)) in
        let* ages :=
          rmapM (fun i => let col := age_ i in
                          let* v := age_pct filtered_df weights total_users_ col in
                          inr (col, v)) (seq 1 9) in
        let* other := age_pct filtered_df weights total_users_ age_other in
        let age_distribution_ := ages ++ [(age_other, other)] in
        let* top_5 := nlargest 5 avg_total_users filtered_df in
        let* top_locations_ := rmapM (location_of filtered_df lng_col) top_5 in
        inr {| total_records := total_records_;
               total_users := total_users_;
               duration_distribution :=
                 {| under_10min := total_under_10min;
                    min_10_30 := total_10_30min;
                    over_30min := total_over_30min |};
               gender_distribution :=
                 {| male_pct := fst avg_sex; female_pct := snd avg_sex |};
               age_distribution := age_distribution_;
               top_locations := top_locations_ |}
  end.

End DataExporter.

(* ===================================================================== *)
(** * services/ollama_service.py                                          *)
(* ===================================================================== *)

Module OllamaService.
Local Open Scope m_scope.

(** ** The engine client *)

(** What [client.list()] returns: a [ListResponse] object, whose [models] are
    objects with a [model] attribute (given here by its value), or a dict. *)
Inductive list_response : Type :=
| ListResponse (models : list pyval)
| ListDict (d : gmap string pyval).

(** What [client.chat(..)] returns: a [ChatResponse] object with
    [message.content] and further attributes by name, or a dict. *)
Inductive chat_response : Type :=
| ChatResponse (message_content : pyval) (attrs : gmap string pyval)
| ChatDict (d : gmap string pyval).

(** The engine, seen from the service: how each call ends. *)
Record Client : Type := mkClient {
  client_list : Result list_response;
  client_chat : string -> list Message -> Result chat_response
}.

Record OllamaService : Type := mkService {
  host : string;
  model : string;
  client : Client
}.

(** ** [OllamaService.check_health] *)

Record Health : Type := mkHealth {
  status : string;
  model_loaded : bool;
  available_models : list pyval;
  error : option string
}.

(** [m.get('name', m.get('model', ''))] *)
Definition model_name_of (m : pyval) : Result pyval :=
  match m with
  | PDict d => inr (dict_get d "name" (dict_get d "model" (PStr "")))
  | _ => inl (AttributeError "object has no attribute 'get'")
  end.

(** The two branches on [hasattr(response, 'models')]; the comprehension
    of the second runs over whatever [response.get('models', [])] is. *)
Definition model_names_of (response : list_response) : Result (list pyval) :=
  match response with
  | ListResponse models => inr models
  | ListDict d =>
      rbind (py_iter (dict_get d "models" (PList [])))
            (fun models => rmapM model_name_of models)
  end.

Definition check_health (self : OllamaService) : M Health :=
  try_except
    (do response <- call EngineList (client_list (client self));
     do model_names <- lift (model_names_of response);
     let model_loaded_ := existsb (str_eqb (model self)) model_names in
     ret {| status := if model_loaded_ then "connected" else "degraded";
            model_loaded := model_loaded_;
            available_models := model_names;
            error := if model_loaded_ then None
                     else Some ("Model " +:+ model self +:+ " not found. Run: ollama pull "
                                +:+ model self) |})
    (fun e =>
       ret {| status := "disconnected";
              model_loaded := false;
              available_models := [];
              error := Some ("Cannot connect to Ollama at " +:+ host self +:+ ": "
                             +:+ str_of_exn e) |}).

(** ** [OllamaService.generate_response] *)

Record Generated : Type := mkGenerated {
  response : pyval;
  gen_model : string;
  tokens_used : pyval
}.

(** The message list of one request (the lines between the system prompt and
    the call of the engine). *)
Definition build_messages (system_prompt user_message : string)
    (history : option (list Message)) : list Message :=
  let messages := [ {| role := "system"; content := system_prompt |} ] in
  let messages :=
    match history with
    | None | Some [] => messages
    | Some h => messages ++ slice_from (-20) h
    end in
  messages ++ [ {| role := "user"; content := user_message |} ].

(** The two branches on [hasattr(response, 'message')]. *)
Definition extract (self : OllamaService) (r : chat_response) : Result Generated :=
  match r with
  | ChatResponse message_content attrs =>
      let ai_response := message_content in
      let eval_count := dict_get attrs "eval_count" (PInt 0) in
      let prompt_eval_count := dict_get attrs "prompt_eval_count" (PInt 0) in
      let* tokens_used_ := py_add eval_count prompt_eval_count in
      inr {| response := ai_response; gen_model := model self;
             tokens_used := tokens_used_ |}
  | ChatDict d =>
      let* message := dict_getitem d "message" in
      let* ai_response := subscript message "content" in
      let* tokens_used_ :=
        py_add (dict_get d "eval_count" (PInt 0))
               (dict_get d "prompt_eval_count" (PInt 0)) in
      inr {| response := ai_response; gen_model := model self;
             tokens_used := tokens_used_ |}
  end%result.

Section GenerateResponse.

(** [build_system_prompt]: the prompt text is a function of the data context
    alone; nothing below depends on the text. *)
Context {DataContextDict : Type}.
Variable build_system_prompt : DataContextDict -> string.

Definition generate_response (self : OllamaService) (user_message : string)
    (data_context : DataContextDict) (history : option (list Message)) : M Generated :=
  try_except
    (let system_prompt := build_system_prompt data_context in
     let messages := build_messages system_prompt user_message history in
     do response_ <- call (EngineChat (model self) messages)
                          (client_chat (client self) (model self) messages);
     lift (extract self response_))
    (fun e => raise (Exception ("Failed to generate response: " +:+ str_of_exn e))).

End GenerateResponse.

End OllamaService.

(* ===================================================================== *)
(** * api/models/chat.py                                                  *)
(* ===================================================================== *)

(** The request body as parsed JSON of the right field types; the models
    check the constraints.  A [string] stands for a Python [str], one
    element per character. *)
Module ChatModels.
Local Open Scope result_scope.

Definition len (s : string) : Z := Z.of_nat (String.length s).

Record ChatMessage : Type := mkChatMessage {
  cm_role : string;
  cm_content : string;
  cm_timestamp : option Z
}.

Definition validate_ChatMessage (m : ChatMessage) : Result ChatMessage :=
  if negb (bool_decide (cm_role m ∈ ["user"; "assistant"; "system"])) then
    inl (ValidationError "role: Input should be 'user', 'assistant' or 'system'")
  else if len (cm_content m) <? 1 then
    inl (ValidationError "content: String should have at least 1 character")
  else if 10000 <? len (cm_content m) then
    inl (ValidationError "content: String should have at most 10000 characters")
  else inr m.

Record DataContext : Type := mkDataContext {
  month : Z;
  hour : Z;
  day_type : string
}.

(** [DataContext.validate_month] *)
Definition validate_month (v : Z) : Result Z :=
  if negb ((100000 <=? v) && (v <=? 999912)) then
    inl (ValueError "Month must be in YYYYMM format (e.g., 202412)")
  else inr v.

Definition validate_hour (v : Z) : Result Z :=
  if v <? 0 then inl (ValidationError "hour: Input should be greater than or equal to 0")
  else if 23 <? v then inl (ValidationError "hour: Input should be less than or equal to 23")
  else inr v.

Definition validate_day_type (v : string) : Result string :=
  if bool_decide (v ∈ ["平日"; "假日"]) then inr v
  else inl (ValidationError "day_type: Input should be '平日' or '假日'").

Definition validate_DataContext (c : DataContext) : Result DataContext :=
  let* m := match validate_month (month c) with
            | inl e => inl (ValidationError ("month: " +:+ str_of_exn e))
            | inr v => inr v
            end in
  let* h := validate_hour (hour c) in
  let* d := validate_day_type (day_type c) in
  inr {| month := m; hour := h; day_type := d |}.

Record ChatRequest : Type := mkChatRequest {
  message : string;
  context : DataContext;
  history : list ChatMessage
}.

Definition validate_ChatRequest (r : ChatRequest) : Result ChatRequest :=
  let* msg :=
    (if len (message r) <? 1 then
       inl (ValidationError "message: String should have at least 1 character")
     else if 500 <? len (message r) then
       inl (ValidationError "message: String should have at most 500 characters")
     else inr (message r)) in
  let* ctx := validate_DataContext (context r) in
  let* hist :=
    (if (20 <? Z.of_nat (length (history r))) then
       inl (ValidationError "history: List should have at most 20 items")
     else rmapM validate_ChatMessage (history r)) in
  inr {| message := msg; context := ctx; history := hist |}.

(** Response body of POST /api/chat/message. *)
Record ChatResponse : Type := mkChatResponse {
  cr_response : string;
  cr_timestamp : Z;
  cr_model : string;
  cr_tokens_used : Z
}.

(** The integer a string writes in decimal: blanks around it are dropped, a
    sign may come first, and at least one digit follows. *)
Definition digit_of (a : Ascii.ascii) : option Z :=
  let n := Z.of_N (Ascii.N_of_ascii a) in
  if (48 <=? n) && (n <=? 57) then Some (n - 48) else None.

Fixpoint digits_value (acc : Z) (s : list Ascii.ascii) : option Z :=
  match s with
  | [] => Some acc
  | a :: s' =>
      match digit_of a with
      | Some d => digits_value (10 * acc + d) s'
      | None => None
      end
  end.

Definition is_blank (a : Ascii.ascii) : bool :=
  let n := Z.of_N (Ascii.N_of_ascii a) in
  (n =? 32) || ((9 <=? n) && (n <=? 13)).

Fixpoint drop_blanks (s : list Ascii.ascii) : list Ascii.ascii :=
  match s with
  | a :: s' => if is_blank a then drop_blanks s' else s
  | [] => []
  end.

Definition strip (s : list Ascii.ascii) : list Ascii.ascii :=
  rev (drop_blanks (rev (drop_blanks s))).

Definition int_of_str (s : string) : option Z :=
  match strip (String.list_ascii_of_string s) with
  | [] => None
  | a :: s' =>
      let n := Z.of_N (Ascii.N_of_ascii a) in
      if n =? 45 then
        match s' with [] => None | _ => Z.opp <$> digits_value 0 s' end
      else if n =? 43 then
        match s' with [] => None | _ => digits_value 0 s' end
      else digits_value 0 (a :: s')
  end.

(** An [int] field in the default (lax) mode of the model: an integer as it
    is, a float that has no fractional part as that integer, a string as the
    integer it writes. *)
Definition lax_int (v : pyval) : option Z :=
  match v with
  | PInt n => Some n
  | PFloat (Some q) =>
      if decide (Qden (this q) = 1%positive) then Some (Qnum (this q)) else None
  | PStr s => int_of_str s
  | _ => None
  end.

(** [ChatResponse(response=.., timestamp=.., model=.., tokens_used=..)] *)
Definition make_ChatResponse (response_ : pyval) (timestamp_ : Z) (model_ : string)
    (tokens_used_ : pyval) : Result ChatResponse :=
  match response_ with
  | PStr s =>
      match lax_int tokens_used_ with
      | Some n =>
          inr {| cr_response := s; cr_timestamp := timestamp_; cr_model := model_;
                 cr_tokens_used := n |}
      | None => inl (ValidationError "tokens_used: Input should be a valid integer")
      end
  | _ => inl (ValidationError "response: Input should be a valid string")
  end.

(** Response body of GET /api/chat/health. *)
Record HealthResponse : Type := mkHealthResponse {
  hr_status : string;
  hr_ollama_status : string;
  hr_model : string;
  hr_model_loaded : bool;
  hr_gpu_available : option bool;
  hr_error : option string;
  hr_timestamp : string
}.

(** [HealthResponse(status=.., ollama_status=.., ..)]: the two [Literal]
    fields are checked. *)
Definition make_HealthResponse (status_ ollama_status_ model_ : string)
    (model_loaded_ : bool) (gpu_available_ : option bool) (error_ : option string)
    (timestamp_ : string) : Result HealthResponse :=
  if negb (bool_decide (status_ ∈ ["ok"; "degraded"])) then
    inl (ValidationError "status: Input should be 'ok' or 'degraded'")
  else if negb (bool_decide (ollama_status_ ∈ ["connected"; "disconnected"; "error"])) then
    inl (ValidationError
           "ollama_status: Input should be 'connected', 'disconnected' or 'error'")
  else
    inr {| hr_status := status_; hr_ollama_status := ollama_status_;
           hr_model := model_; hr_model_loaded := model_loaded_;
           hr_gpu_available := gpu_available_; hr_error := error_;
           hr_timestamp := timestamp_ |}.

(** Response body of GET /api/chat/context; [metadata] is the dict
    [{'total_records': .., 'query': {'month': .., 'hour': .., 'day_type': ..}}]. *)
Record ContextResponse : Type := mkContextResponse {
  md_total_records : nat;
  md_query : FilterKey;
  sample_data : list (list (string * pyval));
  note : option string
}.

End ChatModels.

(* ===================================================================== *)
(** * api/routes/chat.py                                                  *)
(* ===================================================================== *)

Module ChatRoutes.
Local Open Scope m_scope.

(** What the handlers reach through [get_ollama_service()] and
    [get_data_exporter()], and the clock. *)
Record Services : Type := mkServices {
  ollama_service : OllamaService.OllamaService;
  lookup_dict : gmap FilterKey DataExporter.DataFrame;
  now_ms : Z
}.

(** [data_context]: month, hour, day_type and the summary. *)
Definition DataContextDict : Type := Z * Z * string * DataExporter.Summary.

Inductive HttpResult : Type :=
| Http200 (body : ChatModels.ChatResponse)
| HttpError (status_code : Z) (detail : string).

Section Routes.

Variable build_system_prompt : DataContextDict -> string.
Variable env : Services.

(** The body of [send_message], after the request model has been built. *)
Definition send_message_body (request : ChatModels.ChatRequest)
  : M ChatModels.ChatResponse :=
  try_except
    (do health <- OllamaService.check_health (ollama_service env);
     do _ <- (if bool_decide (OllamaService.status health = "connected") then ret tt
              else raise (HTTPException 503
                     ("Ollama service is not available. "
                      +:+ default "None" (OllamaService.error health))));
     let month := ChatModels.month (ChatModels.context request) in
     let hour := ChatModels.hour (ChatModels.context request) in
     let day_type := ChatModels.day_type (ChatModels.context request) in
     do summary <- call (CacheLookup (month, hour, day_type))
                        (DataExporter.get_context_summary (lookup_dict env)
                           month hour day_type);
     let data_context := (month, hour, day_type, summary) in
     let history :=
       map (fun msg => {| role := ChatModels.cm_role msg;
                          content := ChatModels.cm_content msg |})
           (ChatModels.history request) in
     do result <- OllamaService.generate_response build_system_prompt
                    (ollama_service env) (ChatModels.message request)
                    data_context (Some history);
     lift (ChatModels.make_ChatResponse (OllamaService.response result)
             (now_ms env) (OllamaService.gen_model result)
             (OllamaService.tokens_used result)))
    (fun e =>
       match e with
       | HTTPException _ _ => raise e
       | _ => raise (HTTPException 500
                       ("Failed to generate response: " +:+ str_of_exn e))
       end).

(** POST /api/chat/message: the framework builds [request: ChatRequest] from
    the body and answers 422 itself when that fails; otherwise the handler
    runs. *)
Definition send_message (body : ChatModels.ChatRequest) : list access * HttpResult :=
  match ChatModels.validate_ChatRequest body with
  | inl e => ([], HttpError 422 (str_of_exn e))
  | inr request =>
      match send_message_body request with
      | (t, inr r) => (t, Http200 r)
      | (t, inl (HTTPException c d)) => (t, HttpError c d)
      | (t, inl e) => (t, HttpError 500 (str_of_exn e))
      end
  end.

End Routes.

Section OtherRoutes.

(** [OLLAMA_MODEL] of utils/config.py, and the text of
    [datetime.utcnow().isoformat() + "Z"]. *)
Variable OLLAMA_MODEL : string.
Variable utcnow_iso : string.
Variable env : Services.

(** GET /api/chat/health *)
Definition check_health : M ChatModels.HealthResponse :=
  try_except
    (do health <- OllamaService.check_health (ollama_service env);
     let overall_status :=
       if bool_decide (OllamaService.status health = "connected")
       then "ok" else "degraded" in
     let gpu_available := OllamaService.model_loaded health in
     lift (ChatModels.make_HealthResponse overall_status
             (OllamaService.status health) OLLAMA_MODEL
             (OllamaService.model_loaded health)
             (if OllamaService.model_loaded health then Some gpu_available else None)
             (OllamaService.error health)
             utcnow_iso))
    (fun e =>
       lift (ChatModels.make_HealthResponse "degraded" "error" OLLAMA_MODEL false None
               (Some (str_of_exn e)) utcnow_iso)).

(** GET /api/chat/context: the three query parameters go to the exporter as
    they come. *)
Definition get_context (month hour : Z) (day_type : string)
  : M ChatModels.ContextResponse :=
  try_except
    (do summary <- call (CacheLookup (month, hour, day_type))
                        (DataExporter.get_context_summary (lookup_dict env)
                           month hour day_type);
     do data_records <- call (CacheLookup (month, hour, day_type))
                             (DataExporter.export_to_json (lookup_dict env)
                                month hour day_type);
     let total_records := length data_records in
     let sample_records := take 50 data_records in
     let note_ :=
       if bool_decide (50 < total_records)%nat
       then Some ("Showing 50 of " +:+ pretty total_records +:+ " records")
       else None in
     ret {| ChatModels.md_total_records := DataExporter.total_records summary;
            ChatModels.md_query := (month, hour, day_type);
            ChatModels.sample_data := sample_records;
            ChatModels.note := note_ |})
    (fun e =>
       raise (HTTPException 500 ("Failed to retrieve context: " +:+ str_of_exn e))).

End OtherRoutes.

End ChatRoutes.

(* ===================================================================== *)
(** * The vocabulary of the specification                                 *)
(* ===================================================================== *)

Module Spec.
Import DataExporter.
Local Open Scope Qc_scope.

(** A missing number counts as 0. *)
Definition nz (c : cell) : Qc := default 0 c.

(** Σ over the rows, in exact arithmetic. *)
Definition sum_over {A} (f : A -> Qc) (l : list A) : Qc :=
  foldr (fun x acc => f x + acc) 0 l.

(** The weight of a row, and Σ total_users_i. *)
Definition users (r : Row) : Qc := nz (num r avg_total_users).
Definition total (df : DataFrame) : Qc := sum_over users (rows df).

(** Σ field_i. *)
Definition column_sum (c : ncol) (df : DataFrame) : Qc :=
  sum_over (fun r => nz (num r c)) (rows df).

(** Σ(field_i × total_users_i) / total_users. *)
Definition weighted_average (c : ncol) (df : DataFrame) : Qc :=
  sum_over (fun r => nz (num r c) * users r) (rows df) / total df.

(** The percentage fields, in the order of the summary. *)
Definition age_columns : list ncol :=
  [age_ 1; age_ 2; age_ 3; age_ 4; age_ 5; age_ 6; age_ 7; age_ 8; age_ 9; age_other].

(** The columns an observation row must have for the summary (the spec's
    ObservationRow), the longitude under either of its two names. *)
Definition summary_columns : list column :=
  [ Num lat; Num avg_total_users;
    Num avg_users_under_10min; Num avg_users_10_30min; Num avg_users_over_30min;
    Num sex_1; Num sex_2 ] ++ map Num age_columns.

Definition well_formed (df : DataFrame) : bool :=
  forallb (has_col df) summary_columns
  && (has_col df (Num lng) || has_col df (Num lon)).

(** The order of the ranking on total_users: larger first, rows without a
    number last. *)
Definition cell_ge (a b : cell) : Prop :=
  match a, b with
  | _, None => True
  | Some x, Some y => y <= x
  | None, Some _ => False
  end.

(** Descending by a key. *)
Definition descending {A} (key : A -> Qc) (a b : A) : Prop := key b <= key a.

(** The same order, on rows and on entries of [top_locations]. *)
Definition by_users (a b : Row) : Prop :=
  cell_ge (num a avg_total_users) (num b avg_total_users).

Definition by_total_users (a b : Location) : Prop :=
  cell_ge (loc_total_users a) (loc_total_users b).

(** The entry of a row in [top_locations]. *)
Definition location (df : DataFrame) (r : Row) : Location :=
  {| loc_lat := num r lat;
     loc_lon := num r (if has_col df (Num lng) then lng else lon);
     loc_total_users := num r avg_total_users;
     loc_under_10min := num r avg_users_under_10min;
     loc_10_30min := num r avg_users_10_30min;
     loc_over_30min := num r avg_users_over_30min |}.

(** The rows of a frame, ranked as [nlargest] ranks them. *)
Definition ranked (df : DataFrame) : list Row :=
  sort_desc users (filter (fun r => is_Some (num r avg_total_users)) (rows df))
  ++ filter (fun r => ¬ is_Some (num r avg_total_users)) (rows df).

(** A percentage of the summary: the weighted average when the total is
    positive, else 0. *)
Definition pct (c : ncol) (df : DataFrame) : cell :=
  if decide (0 < total df) then Some (weighted_average c df) else Some 0.

End Spec.

Module OllamaSpec.
Import OllamaService.

(** The first and the last message of every request. *)
Definition system_turn (p : string) : Message := {| role := "system"; content := p |}.
Definition user_turn (u : string) : Message := {| role := "user"; content := u |}.

(** A counter of a response: its integer when present, 0 when absent. *)
Definition counters (r : chat_response) : gmap string pyval :=
  match r with
  | ChatResponse _ attrs => attrs
  | ChatDict d => d
  end.

Definition counter (name : string) (r : chat_response) : Z :=
  match counters r !! name with
  | Some (PInt z) => z
  | _ => 0
  end.

Definition int_or_absent (v : option pyval) : Prop :=
  match v with
  | None | Some (PInt _) => True
  | _ => False
  end.

(** The text of a response, in either shape. *)
Definition text_of (r : chat_response) : option pyval :=
  match r with
  | ChatResponse c _ => Some c
  | ChatDict d =>
      match d !! "message" with
      | Some (PDict m) => m !! "content"
      | _ => None
      end
  end.

(** The two supported shapes: the text is there, and a counter that is there
    is an integer. *)
Definition supported_shape (r : chat_response) : Prop :=
  is_Some (text_of r)
  /\ int_or_absent (counters r !! "eval_count")
  /\ int_or_absent (counters r !! "prompt_eval_count").

(** The manifest of [client.list()]: the model names, when the query returns
    and its answer has one of the two shapes. *)
Definition manifest (c : Client) : Result (list pyval) :=
  rbind (client_list c) model_names_of.

End OllamaSpec.

Module ManifestSpec.
Import OllamaService.

(** The identifier an entry of a dict-shaped manifest stands for: its
    'name', or else its 'model', or else the empty string. *)
Definition entry_name (entry : gmap string pyval) : pyval :=
  match entry !! "name", entry !! "model" with
  | Some n, _ => n
  | None, Some m => m
  | None, None => PStr ""
  end.

Definition as_dict (v : pyval) : option (gmap string pyval) :=
  match v with
  | PDict d => Some d
  | _ => None
  end.

(** The entries of a dict-shaped manifest: none when it has no 'models' or
    when its 'models' is a dict or a string with nothing in it, those of its
    list of dicts otherwise. *)
Definition entries_of (d : gmap string pyval) : option (list (gmap string pyval)) :=
  match d !! "models" with
  | None => Some []
  | Some (PList l) => mapM as_dict l
  | Some (PDict m) => if decide (size m = 0%nat) then Some [] else None
  | Some (PStr s) => if decide (String.length s = 0%nat) then Some [] else None
  | Some _ => None
  end.

(** The manifest the engine returned: the model identifiers its answer
    lists. *)
Definition returned_manifest (c : Client) : option (list pyval) :=
  match client_list c with
  | inr (ListResponse models) => Some models
  | inr (ListDict d) => map entry_name <$> entries_of d
  | inl _ => None
  end.

End ManifestSpec.

Module ChatSpec.
Import ChatModels.

(** A validator accepts its input. *)
Definition accepted {A} (r : Result A) : Prop := exists a, r = inr a.

(** The constraints of a history turn and of the message of a request. *)
Definition turn_ok (t : ChatMessage) : Prop :=
  cm_role t ∈ ["user"; "assistant"; "system"]
  /\ 1 <= len (cm_content t) <= 10000.

Definition chat_ok (r : ChatRequest) : Prop :=
  1 <= len (message r) <= 500
  /\ (length (history r) <= 20)%nat
  /\ Forall turn_ok (history r).

End ChatSpec.

(* ===================================================================== *)
(** * Concrete inputs                                                     *)
(* ===================================================================== *)

Module Examples.
Import DataExporter.

Definition q (z : Z) : Qc := Q2Qc (inject_Z z).

(** A row with the given total, dwell-time buckets and gender percentages;
    every other numeric cell holds [other]. *)
Definition observation (total_ : cell) (u10 u30 o30 : cell) (s1 s2 : cell)
    (other : cell) : Row :=
  {| num := fun c =>
       match c with
       | avg_total_users => total_
       | avg_users_under_10min => u10
       | avg_users_10_30min => u30
       | avg_users_over_30min => o30
       | sex_1 => s1
       | sex_2 => s2
       | _ => other
       end;
     day_type_cell := Some "平日" |}.

(** The two rows of the specification's example: A (100 users, buckets
    30/50/20, sex 60/40) and B (50 users, buckets 15/25/10, sex 30/70). *)
Definition row_A : Row :=
  observation (Some (q 100)) (Some (q 30)) (Some (q 50)) (Some (q 20))
              (Some (q 60)) (Some (q 40)) (Some (q 10)).
Definition row_B : Row :=
  observation (Some (q 50)) (Some (q 15)) (Some (q 25)) (Some (q 10))
              (Some (q 30)) (Some (q 70)) (Some (q 10)).

Definition key_8 : FilterKey := (202412, 8, "平日").

Definition frame_AB : DataFrame := {| columns := required_cols; rows := [row_A; row_B] |}.
Definition cache_AB : gmap FilterKey DataFrame := {[ key_8 := frame_AB ]}.

(** Row B with its under-10-minutes cell missing. *)
Definition row_B_nan : Row :=
  observation (Some (q 50)) None (Some (q 25)) (Some (q 10))
              (Some (q 30)) (Some (q 70)) (Some (q 10)).
Definition frame_nan : DataFrame := {| columns := required_cols; rows := [row_B_nan] |}.
Definition cache_nan : gmap FilterKey DataFrame := {[ key_8 := frame_nan ]}.

(** A frame with the columns but no rows. *)
Definition frame_empty : DataFrame := {| columns := required_cols; rows := [] |}.
Definition cache_empty : gmap FilterKey DataFrame := {[ key_8 := frame_empty ]}.

(** An engine that has the configured model and answers every chat with an
    object carrying one of the two counters. *)
Definition engine : OllamaService.Client :=
  {| OllamaService.client_list := inr (OllamaService.ListResponse [PStr "qwen2.5:7b"]);
     OllamaService.client_chat := fun _ _ =>
       inr (OllamaService.ChatResponse (PStr "ok") {[ "eval_count" := PInt 7 ]}) |}.

(** An engine that cannot be reached. *)
Definition engine_down : OllamaService.Client :=
  {| OllamaService.client_list := inl (ConnectionError "connection refused");
     OllamaService.client_chat := fun _ _ => inl (ConnectionError "connection refused") |}.

Definition service (c : OllamaService.Client) : OllamaService.OllamaService :=
  {| OllamaService.host := "http://localhost:11434";
     OllamaService.model := "qwen2.5:7b";
     OllamaService.client := c |}.

Definition prompt : ChatRoutes.DataContextDict -> string := fun _ => "system prompt".

Definition env : ChatRoutes.Services :=
  {| ChatRoutes.ollama_service := service engine;
     ChatRoutes.lookup_dict := cache_AB;
     ChatRoutes.now_ms := 1734480123456 |}.

Definition turn : Message := {| role := "user"; content := "hi" |}.

Definition context_8 : ChatModels.DataContext :=
  {| ChatModels.month := 202412; ChatModels.hour := 8; ChatModels.day_type := "平日" |}.

Definition request (message_ : string) (c : ChatModels.DataContext)
    (h : list ChatModels.ChatMessage) : ChatModels.ChatRequest :=
  {| ChatModels.message := message_; ChatModels.context := c; ChatModels.history := h |}.

End Examples.

Module ExporterSpec.
Import DataExporter Spec.
Local Open Scope Qc_scope.

(** The column that holds the longitude. *)
Definition lng_col (df : DataFrame) : ncol :=
  if has_col df (Num lng) then lng else lon.

(** What [get_context_summary] cannot do without: the total, the latitude,
    the longitude under one of its names and, once the total is positive, the
    two gender columns. *)
Definition summary_ready (df : DataFrame) : bool :=
  has_col df (Num avg_total_users)
  && has_col df (Num lat)
  && has_col df (Num (lng_col df))
  && (negb (gt0 (Some (total df)))
      || (has_col df (Num sex_1) && has_col df (Num sex_2))).

(** A total, and a percentage, of a column that may be absent. *)
Definition opt_sum (c : ncol) (df : DataFrame) : cell :=
  if has_col df (Num c) then Some (column_sum c df) else Some 0.

Definition opt_pct (c : ncol) (df : DataFrame) : cell :=
  if has_col df (Num c) then pct c df else Some 0.

(** The entry of a row in [top_locations] when dwell-time columns may be
    absent. *)
Definition location_opt (df : DataFrame) (r : Row) : Location :=
  {| loc_lat := num r lat;
     loc_lon := num r (lng_col df);
     loc_total_users := num r avg_total_users;
     loc_under_10min := row_get df r avg_users_under_10min 0;
     loc_10_30min := row_get df r avg_users_10_30min 0;
     loc_over_30min := row_get df r avg_users_over_30min 0 |}.

(** [df.fillna(0)] on the numeric columns. *)
Definition fillna0 (df : DataFrame) : DataFrame :=
  {| columns := columns df;
     rows := map (fun r => {| num := fun c => Some (nz (num r c));
                              day_type_cell := day_type_cell r |}) (rows df) |}.

(** A call returns. *)
Definition is_ok {A} (r : Result A) : Prop := exists a, r = inr a.

(** Σ of a list of numbers. *)
Definition sum_list (l : list Qc) : Qc := foldr Qcplus 0 l.

(** The required columns other than the longitude. *)
Definition required_but_lng : list column :=
  [ Num month; Num gx; Num gy; Num lat; Num hour; day_type;
    Num avg_total_users; Num avg_users_under_10min; Num avg_users_10_30min;
    Num avg_users_over_30min;
    Num sex_1; Num sex_2 ] ++ map Num age_columns.

(** [export_to_json] can serve a frame: every required column is there, the
    longitude under one of its two names. *)
Definition export_ready (df : DataFrame) : bool :=
  forallb (has_col df) required_but_lng
  && (has_col df (Num lng) || has_col df (Num lon)).

(** The value exported for a row and a required column: the number of the
    cell, 0.0 for a missing number; the text of [day_type] as it is. *)
Definition exported_value (df : DataFrame) (r : Row) (c : column) : pyval :=
  match c with
  | Num c => PFloat (Some (nz (num r (if decide (c = lng) then lng_col df else c))))
  | day_type => match day_type_cell r with Some s => PStr s | None => PNone end
  end.

Definition exported_record (df : DataFrame) (r : Row) : list (string * pyval) :=
  map (fun c => (col_name c, exported_value df r c)) required_cols.

(** The frame [export_to_json] reads, after its renaming step. *)
Definition with_lng (df : DataFrame) : DataFrame :=
  if negb (has_col df (Num lng)) && has_col df (Num lon)
  then rename lon lng df else df.

(** A row of that frame. *)
Definition lng_row (df : DataFrame) (r : Row) : Row :=
  if negb (has_col df (Num lng)) && has_col df (Num lon)
  then {| num := fun c => if decide (c = lng) then num r lon else num r c;
          day_type_cell := day_type_cell r |}
  else r.

(** The keys of an exported record, in order. *)
Definition exported_keys : list string :=
  [ "month"; "gx"; "gy"; "lat"; "lng"; "hour"; "day_type";
    "avg_total_users"; "avg_users_under_10min"; "avg_users_10_30min";
    "avg_users_over_30min"; "sex_1"; "sex_2";
    "age_1"; "age_2"; "age_3"; "age_4"; "age_5"; "age_6"; "age_7"; "age_8";
    "age_9"; "age_other" ].

End ExporterSpec.

Module EngineSpec.

(** A value a [for] loop cannot run over. *)
Definition not_iterable (v : pyval) : Prop :=
  match v with
  | PNone | PInt _ | PFloat _ => True
  | _ => False
  end.

End EngineSpec.

Module RouteSpec.
Import ChatModels ChatSpec.

(** The constraints of a request: those of the message and the history, and
    those of the filter context. *)
Definition context_ok (c : DataContext) : Prop :=
  100000 <= month c <= 999912 /\ 0 <= hour c <= 23
  /\ day_type c ∈ ["平日"; "假日"].

Definition request_ok (r : ChatRequest) : Prop := chat_ok r /\ context_ok (context r).

(** The cache key of a request. *)
Definition key_of (request : ChatRequest) : FilterKey :=
  (month (context request), hour (context request), day_type (context request)).

(** The history of a request, as the route hands it on. *)
Definition turns_of (request : ChatRequest) : list Message :=
  map (fun msg => {| role := cm_role msg; content := cm_content msg |})
      (history request).

(** The list the route hands to the engine. *)
Definition messages_of (bsp : ChatRoutes.DataContextDict -> string)
    (request : ChatRequest) (s : DataExporter.Summary)
  : list Message :=
  OllamaSpec.system_turn
    (bsp (month (context request), hour (context request),
          day_type (context request), s))
  :: turns_of request ++ [OllamaSpec.user_turn (message request)].

(** The dict [check_health] returns, by the outcome of the manifest query. *)
Definition health_of (self : OllamaService.OllamaService) : OllamaService.Health :=
  match OllamaSpec.manifest (OllamaService.client self) with
  | inl e =>
      {| OllamaService.status := "disconnected";
         OllamaService.model_loaded := false;
         OllamaService.available_models := [];
         OllamaService.error :=
           Some ("Cannot connect to Ollama at " +:+ OllamaService.host self +:+ ": "
                 +:+ str_of_exn e) |}
  | inr names =>
      let loaded := existsb (str_eqb (OllamaService.model self)) names in
      {| OllamaService.status := if loaded then "connected" else "degraded";
         OllamaService.model_loaded := loaded;
         OllamaService.available_models := names;
         OllamaService.error :=
           if loaded then None
           else Some ("Model " +:+ OllamaService.model self
                      +:+ " not found. Run: ollama pull " +:+ OllamaService.model self) |}
  end.

(** The configured model is in the manifest the engine returned. *)
Definition model_available (self : OllamaService.OllamaService) : Prop :=
  exists names,
    OllamaSpec.manifest (OllamaService.client self) = inr names
    /\ PStr (OllamaService.model self) ∈ names.

End RouteSpec.

Module MoreExamples.
Import DataExporter Examples.

(** The frame of rows A and B without the under-10-minutes column. *)
Definition frame_no_under_10 : DataFrame :=
  {| columns := filter (fun c => c <> Num avg_users_under_10min) required_cols;
     rows := [row_A; row_B] |}.
Definition cache_no_under_10 : gmap FilterKey DataFrame := {[ key_8 := frame_no_under_10 ]}.

(** The same frame without the latitude. *)
Definition frame_no_lat : DataFrame :=
  {| columns := filter (fun c => c <> Num lat) required_cols;
     rows := [row_A; row_B] |}.
Definition cache_no_lat : gmap FilterKey DataFrame := {[ key_8 := frame_no_lat ]}.

(** Engines that list the configured model and answer a chat with a null
    counter, with a dict lacking its message, or not at all. *)
Definition engine_null_counter : OllamaService.Client :=
  {| OllamaService.client_list := inr (OllamaService.ListResponse [PStr "qwen2.5:7b"]);
     OllamaService.client_chat := fun _ _ =>
       inr (OllamaService.ChatResponse (PStr "ok")
              {[ "eval_count" := PInt 7; "prompt_eval_count" := PNone ]}) |}.

Definition engine_bare_dict : OllamaService.Client :=
  {| OllamaService.client_list := inr (OllamaService.ListResponse [PStr "qwen2.5:7b"]);
     OllamaService.client_chat := fun _ _ => inr (OllamaService.ChatDict ∅) |}.

Definition engine_chat_down : OllamaService.Client :=
  {| OllamaService.client_list := inr (OllamaService.ListResponse [PStr "qwen2.5:7b"]);
     OllamaService.client_chat := fun _ _ => inl (ConnectionError "timed out") |}.

(** Engines whose manifest is a dict: without models, and with an entry that
    is not a dict. *)
Definition engine_no_models : OllamaService.Client :=
  {| OllamaService.client_list := inr (OllamaService.ListDict ∅);
     OllamaService.client_chat := fun _ _ => inl (ConnectionError "timed out") |}.

Definition engine_bad_manifest : OllamaService.Client :=
  {| OllamaService.client_list :=
       inr (OllamaService.ListDict {[ "models" := PList [PStr "qwen2.5:7b"] ]});
     OllamaService.client_chat := fun _ _ => inl (ConnectionError "timed out") |}.

(** An engine that answers, but has another model. *)
Definition engine_other_model : OllamaService.Client :=
  {| OllamaService.client_list := inr (OllamaService.ListResponse [PStr "llama3"]);
     OllamaService.client_chat := fun _ _ => inl (ConnectionError "timed out") |}.

Definition env_with (c : OllamaService.Client) (cache : gmap FilterKey DataFrame)
  : ChatRoutes.Services :=
  {| ChatRoutes.ollama_service := service c;
     ChatRoutes.lookup_dict := cache;
     ChatRoutes.now_ms := 1734480123456 |}.

Definition request_8 : ChatModels.ChatRequest :=
  request "q" context_8
    [ {| ChatModels.cm_role := "user"; ChatModels.cm_content := "hi";
         ChatModels.cm_timestamp := None |} ].

(** A data context for the engine service. *)
Definition dc_8 : ChatRoutes.DataContextDict :=
  (202412, 8, "平日", DataExporter.zero_summary).

End MoreExamples.

(* ===================================================================== *)
(** * Properties of the data exporter                                     *)
(* ===================================================================== *)

Section ExporterFacts.
Import DataExporter Spec.
Local Open Scope Qc_scope.

Ltac in_list :=
  cbn; repeat first [apply list_elem_of_here | apply list_elem_of_further].

Lemma rmapM_ok {A B} (f : A -> Result B) (g : A -> B) (l : list A) :
  (forall x, x ∈ l -> f x = inr (g x)) -> rmapM f l = inr (map g l).
Proof.
  induction l as [|x l IH]; intros Hf; [reflexivity|].
  simpl. rewrite Hf by left. simpl.
  rewrite IH; [reflexivity|]. intros y Hy. apply Hf. by right.
Qed.

Lemma getcol_ok df c :
  has_col df (Num c) = true -> getcol df c = inr (map (fun r => num r c) (rows df)).
Proof. intros H. unfold getcol. by rewrite H. Qed.

Lemma Series_sum_map (f : Row -> cell) (l : list Row) :
  Series_sum (map f l) = Some (sum_over (fun r => nz (f r)) l).
Proof.
  unfold Series_sum. f_equal.
  induction l as [|r l IH]; [reflexivity|].
  simpl. rewrite IH. destruct (f r); simpl; [reflexivity|ring].
Qed.

Lemma Series_sum_mul (f w : Row -> cell) (l : list Row) :
  Series_sum (Series_mul (map f l) (map w l))
  = Some (sum_over (fun r => nz (f r) * nz (w r)) l).
Proof.
  unfold Series_sum, Series_mul. f_equal.
  induction l as [|r l IH]; [reflexivity|].
  simpl. rewrite IH. destruct (f r), (w r); simpl; ring.
Qed.

Lemma cell_div_total x df :
  gt0 (Some (total df)) = true ->
  cell_div (Some x) (Some (total df)) = Some (x / total df).
Proof.
  unfold gt0, cell_div. intros H%bool_decide_eq_true.
  destruct (decide (total df = 0)) as [E|]; [|reflexivity].
  apply Qclt_not_eq in H. by rewrite E in H.
Qed.

Lemma wf_has df c :
  well_formed df = true -> c ∈ summary_columns -> has_col df c = true.
Proof.
  unfold well_formed. intros [H _]%andb_prop Hc.
  rewrite forallb_forall in H. apply H. by apply list_elem_of_In.
Qed.

Lemma wf_nonempty df :
  well_formed df = true -> rows df <> [] -> empty df = false.
Proof.
  intros Hwf Hr. pose proof (wf_has df (Num lat) Hwf) as H.
  unfold has_col in H. unfold empty.
  destruct (rows df); [done|].
  destruct (columns df); [|done].
  assert (bool_decide (Num lat ∈ @nil column) = true) as E
    by (apply H; in_list).
  apply bool_decide_eq_true in E. set_solver.
Qed.

Lemma column_total_ok df c :
  has_col df (Num c) = true -> column_total df c = inr (Some (column_sum c df)).
Proof.
  intros H. unfold column_total. rewrite H, getcol_ok by done. cbn [rbind].
  by rewrite Series_sum_map.
Qed.

Lemma weighted_pct_ok df c :
  has_col df (Num c) = true -> gt0 (Some (total df)) = true ->
  weighted_pct df (map (fun r => num r avg_total_users) (rows df)) (Some (total df)) c
  = inr (Some (weighted_average c df)).
Proof.
  intros H Hpos. unfold weighted_pct. rewrite getcol_ok by done. cbn [rbind].
  rewrite Series_sum_mul, cell_div_total by done. reflexivity.
Qed.

Lemma age_pct_ok df c :
  has_col df (Num c) = true ->
  age_pct df (map (fun r => num r avg_total_users) (rows df)) (Some (total df)) c
  = inr (pct c df).
Proof.
  intros H. unfold age_pct, pct. rewrite H. cbn [andb].
  destruct (decide (0 < total df)) as [Hp|Hp].
  - assert (gt0 (Some (total df)) = true) as G by (by apply bool_decide_eq_true).
    rewrite G. by apply weighted_pct_ok.
  - assert (gt0 (Some (total df)) = false) as G by (by apply bool_decide_eq_false).
    by rewrite G.
Qed.

Lemma location_of_ok df r :
  well_formed df = true ->
  location_of df (if has_col df (Num lng) then lng else lon) r = inr (location df r).
Proof.
  intros Hwf. unfold location_of, row_getitem, row_get, location.
  assert (has_col df (Num (if has_col df (Num lng) then lng else lon)) = true) as ->.
  { unfold well_formed in Hwf. apply andb_prop in Hwf as [_ H].
    destruct (has_col df (Num lng)) eqn:E; [done|]. by simpl in H. }
  rewrite (wf_has df (Num lat)), (wf_has df (Num avg_total_users)),
    (wf_has df (Num avg_users_under_10min)), (wf_has df (Num avg_users_10_30min)),
    (wf_has df (Num avg_users_over_30min))
    by (done || (in_list)).
  reflexivity.
Qed.

Lemma nlargest_ok df n :
  has_col df (Num avg_total_users) = true ->
  nlargest n avg_total_users df = inr (take n (ranked df)).
Proof. intros H. unfold nlargest. by rewrite H. Qed.

Lemma rbind_inr {A B} (a : A) (f : A -> Result B) : rbind (inr a) f = f a.
Proof. reflexivity. Qed.

Lemma gender_ok df :
  has_col df (Num sex_1) = true -> has_col df (Num sex_2) = true ->
  (if gt0 (Some (total df)) then
     rbind (weighted_pct df (map (fun r => num r avg_total_users) (rows df))
              (Some (total df)) sex_1) (fun a1 =>
     rbind (weighted_pct df (map (fun r => num r avg_total_users) (rows df))
              (Some (total df)) sex_2) (fun a2 => inr (a1, a2)))
   else inr (Some 0, Some 0))
  = inr (pct sex_1 df, pct sex_2 df).
Proof.
  intros H1 H2. unfold pct.
  destruct (decide (0 < total df)) as [Hp|Hp].
  - assert (gt0 (Some (total df)) = true) as G by (by apply bool_decide_eq_true).
    rewrite G, !weighted_pct_ok by done. reflexivity.
  - assert (gt0 (Some (total df)) = false) as G by (by apply bool_decide_eq_false).
    by rewrite G.
Qed.

Lemma age_in_summary_columns i : i ∈ seq 1 9 -> Num (age_ i) ∈ summary_columns.
Proof.
  intros Hi. cbn in Hi.
  repeat (apply elem_of_cons in Hi as [->|Hi]); [in_list ..|by apply elem_of_nil in Hi].
Qed.

(** What [get_context_summary] computes on a non-empty frame with the
    columns of an observation row. *)
Lemma get_context_summary_ok lookup_dict m h d df :
  lookup_dict !! (m, h, d) = Some df ->
  rows df <> [] ->
  well_formed df = true ->
  get_context_summary lookup_dict m h d
  = inr {| total_records := length (rows df);
           total_users := Some (total df);
           duration_distribution :=
             {| under_10min := Some (column_sum avg_users_under_10min df);
                min_10_30 := Some (column_sum avg_users_10_30min df);
                over_30min := Some (column_sum avg_users_over_30min df) |};
           gender_distribution :=
             {| male_pct := pct sex_1 df; female_pct := pct sex_2 df |};
           age_distribution := map (fun c => (c, pct c df)) age_columns;
           top_locations := map (location df) (take 5 (ranked df)) |}.
Proof.
  intros Hl Hr Hwf.
  assert (forall c, Num c ∈ summary_columns -> has_col df (Num c) = true) as Hc
    by (intros c; apply wf_has, Hwf).
  assert (forall c, c ∈ age_columns -> has_col df (Num c) = true) as Ha.
  { intros c Hin. apply Hc. unfold summary_columns.
    apply elem_of_app. right. by apply (list_elem_of_fmap_2 Num). }
  unfold get_context_summary. rewrite Hl, wf_nonempty by done.
  rewrite getcol_ok by (apply Hc; in_list).
  rewrite rbind_inr. cbv zeta.
  rewrite Series_sum_map. fold users. change (sum_over users (rows df)) with (total df).
  rewrite !column_total_ok by (apply Hc; in_list).
  rewrite !rbind_inr.
  rewrite gender_ok by (apply Hc; in_list).
  rewrite rbind_inr.
  rewrite (rmapM_ok _ (fun i => (age_ i, pct (age_ i) df))).
  2:{ intros i Hi. rewrite age_pct_ok; [reflexivity|].
      apply Hc, age_in_summary_columns, Hi. }
  rewrite rbind_inr, age_pct_ok by (apply Ha; in_list).
  rewrite rbind_inr, nlargest_ok by (apply Hc; in_list).
  rewrite rbind_inr.
  rewrite (rmapM_ok _ (location df)) by (intros; by apply location_of_ok).
  reflexivity.
Qed.

Section Sorting.
Context {A : Type} (key : A -> Qc).

Lemma insert_desc_perm x l : insert_desc key x l ≡ₚ x :: l.
Proof.
  induction l as [|y l IH]; [reflexivity|].
  simpl. destruct (decide (key x < key y)); [|reflexivity].
  rewrite IH. apply Permutation_swap.
Qed.

Lemma sort_desc_perm l : sort_desc key l ≡ₚ l.
Proof.
  induction l as [|x l IH]; [reflexivity|].
  simpl. fold (sort_desc key l). by rewrite insert_desc_perm, IH.
Qed.

Lemma insert_desc_sorted x l :
  StronglySorted (descending key) l ->
  StronglySorted (descending key) (insert_desc key x l).
Proof.
  induction l as [|y l IH]; intros Hs.
  - repeat constructor.
  - apply StronglySorted_inv in Hs as [Hs Hy]. simpl.
    destruct (decide (key x < key y)) as [Hlt|Hge].
    + constructor; [by apply IH|].
      rewrite insert_desc_perm. constructor; [|done].
      by apply Qclt_le_weak.
    + apply Qcnot_lt_le in Hge.
      constructor; [by constructor|].
      constructor; [done|].
      eapply Forall_impl; [exact Hy|]. intros z Hz. unfold descending in *.
      by apply Qcle_trans with (key y).
Qed.

Lemma sort_desc_sorted l : StronglySorted (descending key) (sort_desc key l).
Proof.
  induction l as [|x l IH]; [constructor|].
  simpl. by apply insert_desc_sorted.
Qed.

Lemma insert_desc_stable k x l :
  filter (fun a => key a = k) (insert_desc key x l)
  = filter (fun a => key a = k) (x :: l).
Proof.
  induction l as [|y l IH]; [reflexivity|].
  simpl. destruct (decide (key x < key y)) as [Hlt|Hge]; [|reflexivity].
  rewrite (filter_cons _ y), IH, !filter_cons.
  destruct (decide (key y = k)) as [Ey|Ey], (decide (key x = k)) as [Ex|Ex]; try done.
  rewrite Ex, Ey in Hlt. by apply Qclt_not_eq in Hlt.
Qed.

Lemma sort_desc_stable k l :
  filter (fun a => key a = k) (sort_desc key l) = filter (fun a => key a = k) l.
Proof.
  induction l as [|x l IH]; [reflexivity|].
  simpl. fold (sort_desc key l).
  by rewrite insert_desc_stable, !filter_cons, IH.
Qed.

End Sorting.

Lemma filter_map {A B} (f : A -> B) (P : B -> Prop) `{forall b, Decision (P b)}
    (l : list A) :
  filter P (map f l) = map f (filter (fun a => P (f a)) l).
Proof.
  induction l as [|x l IH]; [reflexivity|].
  simpl. rewrite !filter_cons, IH. by destruct (decide (P (f x))).
Qed.

Lemma ranked_perm df : ranked df ≡ₚ rows df.
Proof. unfold ranked. rewrite sort_desc_perm. apply filter_app_complement. Qed.

Lemma StronglySorted_weaken {A} (R R' : A -> A -> Prop) l :
  (forall x y, x ∈ l -> y ∈ l -> R x y -> R' x y) ->
  StronglySorted R l -> StronglySorted R' l.
Proof.
  induction l as [|a l IH]; intros HR Hs; [constructor|].
  apply StronglySorted_inv in Hs as [Hs Ha].
  constructor.
  - apply IH; [|done]. intros x y Hx Hy. apply HR; by right.
  - rewrite Forall_forall in Ha |- *. intros y Hy.
    apply HR; [left|by right|by apply Ha].
Qed.

Lemma StronglySorted_all {A} (R : A -> A -> Prop) l :
  (forall x y, x ∈ l -> y ∈ l -> R x y) -> StronglySorted R l.
Proof.
  induction l as [|a l IH]; intros HR; [constructor|].
  constructor.
  - apply IH. intros x y Hx Hy. apply HR; by right.
  - rewrite Forall_forall. intros y Hy. apply HR; [left|by right].
Qed.

Lemma ranked_sorted df : StronglySorted by_users (ranked df).
Proof.
  unfold ranked. apply StronglySorted_app. split_and!.
  - intros x1 x2 _ [Hn _]%list_elem_of_filter. unfold by_users, cell_ge.
    destruct (num x2 avg_total_users); [|by destruct (num x1 avg_total_users)].
    by destruct Hn.
  - eapply StronglySorted_weaken; [|apply sort_desc_sorted].
    intros x y Hx Hy. rewrite sort_desc_perm in Hx, Hy.
    apply list_elem_of_filter in Hx as [[qx Hx] _], Hy as [[qy Hy] _].
    unfold descending, by_users, cell_ge, users, nz. by rewrite Hx, Hy.
  - apply StronglySorted_all.
    intros x y _ [Hn _]%list_elem_of_filter. unfold by_users, cell_ge.
    destruct (num y avg_total_users); [|by destruct (num x avg_total_users)].
    by destruct Hn.
Qed.

Lemma filter_none {A} (P : A -> Prop) `{forall x, Decision (P x)} (l : list A) :
  (forall x, x ∈ l -> ¬ P x) -> filter P l = [].
Proof.
  induction l as [|a l IH]; intros HP; [reflexivity|].
  rewrite filter_cons_False by (apply HP; left).
  apply IH. intros x Hx. apply HP. by right.
Qed.

Lemma filter_ext_in {A} (P Q : A -> Prop)
    `{forall x, Decision (P x), forall x, Decision (Q x)} (l : list A) :
  (forall x, x ∈ l -> (P x <-> Q x)) -> filter P l = filter Q l.
Proof.
  induction l as [|a l IH]; intros HPQ; [reflexivity|].
  rewrite !filter_cons, IH by (intros x Hx; apply HPQ; by right).
  destruct (decide (P a)) as [Hp|Hp], (decide (Q a)) as [Hq|Hq]; try done.
  - destruct Hq. apply HPQ; [left|done].
  - destruct Hp. apply HPQ; [left|done].
Qed.

Lemma ranked_stable df (k : cell) :
  filter (fun r => num r avg_total_users = k) (ranked df)
  = filter (fun r => num r avg_total_users = k) (rows df).
Proof.
  unfold ranked. rewrite filter_app.
  destruct k as [q|].
  - rewrite (filter_none _ (filter _ (rows df))), app_nil_r.
    2:{ intros r [Hn _]%list_elem_of_filter E. destruct Hn. by eexists. }
    rewrite (filter_ext_in _ (fun r => users r = q)).
    2:{ intros r Hr. rewrite sort_desc_perm in Hr.
        apply list_elem_of_filter in Hr as [[q' Hq] _].
        unfold users, nz. rewrite Hq. simpl. split; congruence. }
    rewrite sort_desc_stable, list_filter_filter. apply list_filter_iff.
    intros r. unfold users, nz. split.
    + intros [<- [q' Hq]]. by rewrite Hq.
    + intros ->. split; [done|by eexists].
  - rewrite (filter_none _ (sort_desc _ _)), app_nil_l.
    2:{ intros r Hr E. rewrite sort_desc_perm in Hr.
        apply list_elem_of_filter in Hr as [[q' Hq] _]. congruence. }
    rewrite list_filter_filter. apply list_filter_iff.
    intros r. split; [by intros [? _]|].
    intros E. split; [done|]. rewrite E. by intros [? ?].
Qed.

Lemma StronglySorted_map {A B} (R : A -> A -> Prop) (R' : B -> B -> Prop)
    (f : A -> B) (l : list A) :
  (forall x y, R x y -> R' (f x) (f y)) ->
  StronglySorted R l -> StronglySorted R' (map f l).
Proof.
  intros HR Hs. induction Hs as [|a l Hs IH Ha]; [constructor|].
  simpl. constructor; [exact IH|].
  rewrite Forall_forall in Ha. apply Forall_forall. intros e He.
  apply list_elem_of_In, in_map_iff in He as (r' & <- & Hr').
  apply HR, Ha. by apply list_elem_of_In.
Qed.

Lemma locations_sorted df :
  StronglySorted by_total_users (map (location df) (ranked df)).
Proof. eapply StronglySorted_map; [|apply ranked_sorted]. done. Qed.

Lemma empty_rows df : rows df = [] -> empty df = true.
Proof. unfold empty. by intros ->. Qed.

(** C2.  For the row set of a key, top_locations has min(5, total_records)
    entries, is in descending order of total_users (rows without a number
    last), keeps rows of equal total_users in the order of the row set (for
    every value, the entries with that value are the first such rows, in
    order), and no row left out has more users than a row taken. *)
Theorem top_locations_ranked lookup_dict m h d df :
  lookup_dict !! (m, h, d) = Some df ->
  well_formed df = true ->
  exists s,
    get_context_summary lookup_dict m h d = inr s
    /\ total_records s = length (rows df)
    /\ length (top_locations s) = Nat.min 5 (total_records s)
    /\ StronglySorted by_total_users (top_locations s)
    /\ (forall k : cell,
          filter (fun e => loc_total_users e = k) (top_locations s)
          `prefix_of`
          filter (fun e => loc_total_users e = k) (map (location df) (rows df)))
    /\ (exists rest,
          top_locations s ++ rest ≡ₚ map (location df) (rows df)
          /\ forall t e, t ∈ top_locations s -> e ∈ rest -> by_total_users t e).
Proof.
  intros Hl Hwf. destruct (decide (rows df = [])) as [Hr|Hr].
  - exists zero_summary. unfold get_context_summary.
    rewrite Hl, empty_rows, Hr by done. cbn.
    split_and!; try done; try constructor.
    exists []. split; [done|]. intros t e Ht. by apply elem_of_nil in Ht.
  - eexists. split; [by apply get_context_summary_ok|]. cbn.
    split_and!.
    + reflexivity.
    + by rewrite length_map, length_take, (Permutation_length (ranked_perm df)).
    + pose proof (locations_sorted df) as Hs.
      rewrite <-(take_drop 5 (ranked df)), map_app in Hs.
      by apply StronglySorted_app_1_l in Hs.
    + intros k. rewrite !filter_map. cbn.
      rewrite <-(ranked_stable df k).
      exists (map (location df)
                (filter (fun r => num r avg_total_users = k) (drop 5 (ranked df)))).
      by rewrite <-map_app, <-filter_app, take_drop.
    + exists (map (location df) (drop 5 (ranked df))). split.
      * by rewrite <-map_app, take_drop, ranked_perm.
      * intros t e. apply StronglySorted_app_1_elem_of.
        rewrite <-map_app, take_drop. apply locations_sorted.
Qed.

Lemma top_locations_ranked_witness :
  exists s,
    get_context_summary Examples.cache_AB 202412 8 "平日" = inr s
    /\ length (top_locations s) = 2%nat.
Proof.
  destruct (top_locations_ranked Examples.cache_AB 202412 8 "平日" Examples.frame_AB)
    as (s & Hs & Hn & Hlen & _).
  - vm_compute. reflexivity.
  - vm_compute. reflexivity.
  - exists s. split; [exact Hs|]. rewrite Hlen, Hn. reflexivity.
Defined.

(** C1.  On a non-empty row set with the columns of an observation row,
    [get_context_summary] returns, and each of the two gender percentages and
    of the ten age percentages is the weighted average
    Σ(field_i × total_users_i) / total_users, all with the one weight vector
    of the rows' total_users, when total_users > 0; each of them is exactly 0
    when total_users is 0 (and when it is negative).  No percentage is NaN:
    every one is [Some] number. *)
Theorem weighted_percentages lookup_dict m h d df :
  lookup_dict !! (m, h, d) = Some df ->
  rows df <> [] ->
  well_formed df = true ->
  exists s,
    get_context_summary lookup_dict m h d = inr s
    /\ total_users s = Some (total df)
    /\ (0 < total df ->
        male_pct (gender_distribution s) = Some (weighted_average sex_1 df)
        /\ female_pct (gender_distribution s) = Some (weighted_average sex_2 df)
        /\ age_distribution s
           = map (fun c => (c, Some (weighted_average c df))) age_columns)
    /\ (total df <= 0 ->
        male_pct (gender_distribution s) = Some 0
        /\ female_pct (gender_distribution s) = Some 0
        /\ age_distribution s = map (fun c => (c, Some 0)) age_columns).
Proof.
  intros Hl Hr Hwf. eexists. split; [by apply get_context_summary_ok|].
  cbn [total_users gender_distribution male_pct female_pct age_distribution].
  split; [reflexivity|]. unfold pct. split; intros Ht.
  - by destruct (decide (0 < total df)).
  - apply Qcle_not_lt in Ht. by destruct (decide (0 < total df)).
Qed.

Lemma weighted_percentages_witness :
  exists s,
    get_context_summary Examples.cache_AB 202412 8 "平日" = inr s
    /\ male_pct (gender_distribution s) = Some (Examples.q 50)
    /\ female_pct (gender_distribution s) = Some (Examples.q 50).
Proof.
  destruct (weighted_percentages Examples.cache_AB 202412 8 "平日" Examples.frame_AB)
    as (s & Hs & _ & Hpos & _).
  - vm_compute. reflexivity.
  - discriminate.
  - vm_compute. reflexivity.
  - exists s. split; [exact Hs|].
    destruct Hpos as (H1 & H2 & _); [vm_compute; reflexivity|].
    rewrite H1, H2. split; f_equal; apply Qc_is_canon; vm_compute; reflexivity.
Defined.

(** C3.  When the key is missing from the cache, or its frame has no rows,
    [get_context_summary] returns (it does not raise) the all-zero summary:
    no records, 0.0 users, 0.0 in the three duration fields, the two gender
    fields and the ten age fields, and no top location. *)
Theorem empty_lookup_zero_summary lookup_dict m h d :
  (lookup_dict !! (m, h, d) = None
   \/ exists df, lookup_dict !! (m, h, d) = Some df /\ rows df = []) ->
  exists s,
    get_context_summary lookup_dict m h d = inr s
    /\ total_records s = 0%nat
    /\ total_users s = Some 0
    /\ duration_distribution s
       = {| under_10min := Some 0; min_10_30 := Some 0; over_30min := Some 0 |}
    /\ gender_distribution s = {| male_pct := Some 0; female_pct := Some 0 |}
    /\ age_distribution s = map (fun c => (c, Some 0)) age_columns
    /\ top_locations s = [].
Proof.
  intros H. exists zero_summary. split; [|by repeat split].
  unfold get_context_summary.
  destruct H as [->|(df & -> & Hr)]; [reflexivity|].
  by rewrite empty_rows.
Qed.

Lemma empty_lookup_zero_summary_witness :
  exists s,
    get_context_summary Examples.cache_empty 202412 8 "平日" = inr s
    /\ total_records s = 0%nat /\ top_locations s = [].
Proof.
  destruct (empty_lookup_zero_summary Examples.cache_empty 202412 8 "平日")
    as (s & Hs & Hn & _ & _ & _ & _ & Ht).
  - right. exists Examples.frame_empty. split; [vm_compute|]; reflexivity.
  - by exists s.
Defined.

Lemma sum_over_plus {A} (f g : A -> Qc) (l : list A) :
  sum_over (fun x => f x + g x) l = sum_over f l + sum_over g l.
Proof.
  induction l as [|x l IH]; simpl; [ring|]. rewrite IH. ring.
Qed.

Lemma sum_over_ext {A} (f g : A -> Qc) (l : list A) :
  (forall x, x ∈ l -> f x = g x) -> sum_over f l = sum_over g l.
Proof.
  induction l as [|x l IH]; intros H; [reflexivity|].
  simpl. rewrite H by left. rewrite IH; [reflexivity|].
  intros y Hy. apply H. by right.
Qed.

(** C6.  On a non-empty row set in which the three dwell-time buckets of
    every row add up to the row's total_users, the three components of
    duration_distribution add up to total_users, exactly (the arithmetic of
    the model is exact).  This holds whatever the sign of total_users, so in
    particular when total_users > 0. *)
Theorem duration_sums_to_total lookup_dict m h d df :
  lookup_dict !! (m, h, d) = Some df ->
  rows df <> [] ->
  well_formed df = true ->
  (forall r, r ∈ rows df ->
     nz (num r avg_users_under_10min) + nz (num r avg_users_10_30min)
     + nz (num r avg_users_over_30min) = users r) ->
  exists s a b c t,
    get_context_summary lookup_dict m h d = inr s
    /\ duration_distribution s
       = {| under_10min := Some a; min_10_30 := Some b; over_30min := Some c |}
    /\ total_users s = Some t
    /\ a + b + c = t.
Proof.
  intros Hl Hr Hwf Hrow. do 5 eexists.
  split; [by apply get_context_summary_ok|].
  cbn [duration_distribution total_users]. split; [reflexivity|].
  split; [reflexivity|].
  unfold column_sum, total. rewrite <-!sum_over_plus. by apply sum_over_ext.
Qed.

Lemma duration_sums_to_total_witness :
  exists s a b c,
    get_context_summary Examples.cache_AB 202412 8 "平日" = inr s
    /\ duration_distribution s
       = {| under_10min := Some a; min_10_30 := Some b; over_30min := Some c |}
    /\ total_users s = Some (a + b + c).
Proof.
  destruct (duration_sums_to_total Examples.cache_AB 202412 8 "平日" Examples.frame_AB)
    as (s & a & b & c & t & Hs & Hd & Ht & E).
  - vm_compute. reflexivity.
  - discriminate.
  - vm_compute. reflexivity.
  - intros r Hr. unfold Examples.frame_AB in Hr. cbn [rows] in Hr.
    apply elem_of_cons in Hr as [->|Hr]; [|apply elem_of_cons in Hr as [->|Hr]].
    + apply Qc_is_canon. vm_compute. reflexivity.
    + apply Qc_is_canon. vm_compute. reflexivity.
    + by apply elem_of_nil in Hr.
  - exists s, a, b, c. rewrite E. by repeat split.
Defined.

(** C4.  The requirement that no NaN reaches the output fails in
    [get_context_summary]: on a frame whose single row has no number in
    avg_users_under_10min, the entry of that row in top_locations carries NaN
    in under_10min, while [export_to_json] on the same frame hands out 0.0 for
    the same cell. *)
Theorem nan_dwell_cell_surfaces :
  exists s e,
    get_context_summary Examples.cache_nan 202412 8 "平日" = inr s
    /\ top_locations s = [e]
    /\ loc_under_10min e = None
    /\ exists rec,
         export_to_json Examples.cache_nan 202412 8 "平日" = inr [rec]
         /\ (("avg_users_under_10min", PFloat (Some 0)) : string * pyval) ∈ rec.
Proof.
  do 2 eexists. split; [vm_compute; reflexivity|].
  split; [reflexivity|]. split; [reflexivity|].
  eexists. split; [vm_compute; reflexivity|].
  do 8 apply list_elem_of_further. apply list_elem_of_here.
Qed.

(** [export_to_json] hands out no NaN: the conversion loop replaces it. *)
Lemma convert_value_not_nan v : convert_value v <> PFloat None.
Proof. by destruct v as [| |[?|]| | |]. Qed.

(** X9.  No record returned by [export_to_json] holds NaN, whatever the
    frame. *)
Lemma export_to_json_no_nan lookup_dict m h d records rec kv :
  export_to_json lookup_dict m h d = inr records ->
  rec ∈ records -> kv ∈ rec -> snd kv <> PFloat None.
Proof.
  unfold export_to_json. intros H Hrec Hkv.
  destruct (lookup_dict !! (m, h, d)) as [df|]; [|simplify_eq; by apply elem_of_nil in Hrec].
  destruct (empty df); [simplify_eq; by apply elem_of_nil in Hrec|].
  destruct (to_dict_records _ _) as [e|data]; [done|]. cbn in H. simplify_eq.
  apply list_elem_of_In, in_map_iff in Hrec as (rec0 & <- & _).
  apply list_elem_of_In, in_map_iff in Hkv as (kv0 & <- & _).
  apply convert_value_not_nan.
Qed.


End ExporterFacts.

(* ===================================================================== *)
(** * Properties of the engine service                                    *)
(* ===================================================================== *)

Section OllamaFacts.
Import OllamaService OllamaSpec.

Lemma slice_from_last {A} (n : nat) (l : list A) :
  (0 < n)%nat -> slice_from (- Z.of_nat n) l = drop (length l - n) l.
Proof.
  intros Hn. unfold slice_from.
  destruct (Z.ltb_spec (- Z.of_nat n) 0) as [_|?]; [|lia].
  f_equal. lia.
Qed.

Lemma build_messages_spec p u (history : option (list Message)) :
  let h := default [] history in
  build_messages p u history
  = system_turn p :: drop (length h - 20) h ++ [user_turn u].
Proof.
  unfold build_messages. destruct history as [[|t h]|]; try reflexivity.
  change (-20) with (- Z.of_nat 20). rewrite slice_from_last by lia. reflexivity.
Qed.

Section GenerateResponseFacts.
Context {D : Type} (bsp : D -> string).

Lemma generate_response_log self u dc history :
  fst (generate_response bsp self u dc history)
  = [EngineChat (model self) (build_messages (bsp dc) u history)].
Proof.
  unfold generate_response, try_except, bind, call, lift, raise.
  destruct (client_chat _ _ _) as [e|r]; [reflexivity|].
  destruct (extract self r); reflexivity.
Qed.

(** C5 (as amended).  Whatever the history, [generate_response] dispatches
    exactly one chat call, whose message list is the system instruction, then
    the most recent 20 history turns in their original order (the turns
    dropped are the oldest ones), then the new user turn as last element; the
    list has at most 22 messages (1 + 20 + 1). *)
Theorem dispatched_messages self u dc (history : option (list Message)) :
  let h := default [] history in
  exists dropped kept,
    h = dropped ++ kept
    /\ length kept = Nat.min 20 (length h)
    /\ fst (generate_response bsp self u dc history)
       = [EngineChat (model self) (system_turn (bsp dc) :: kept ++ [user_turn u])]
    /\ (length (system_turn (bsp dc) :: kept ++ [user_turn u]) <= 22)%nat.
Proof.
  intros h. exists (take (length h - 20) h), (drop (length h - 20) h).
  split; [by rewrite take_drop|].
  split; [rewrite length_drop; lia|].
  split; [by rewrite generate_response_log, build_messages_spec|].
  simpl. rewrite length_app, length_drop. simpl. lia.
Qed.
Lemma py_add_counters (d : gmap string pyval) :
  int_or_absent (d !! "eval_count") ->
  int_or_absent (d !! "prompt_eval_count") ->
  py_add (dict_get d "eval_count" (PInt 0)) (dict_get d "prompt_eval_count" (PInt 0))
  = inr (PInt ((match d !! "eval_count" with Some (PInt z) => z | _ => 0 end)
               + (match d !! "prompt_eval_count" with Some (PInt z) => z | _ => 0 end))).
Proof.
  unfold dict_get, int_or_absent.
  destruct (d !! "eval_count") as [[]|], (d !! "prompt_eval_count") as [[]|];
    simpl; intros; done.
Qed.

Lemma extract_ok self r :
  supported_shape r ->
  exists txt,
    text_of r = Some txt
    /\ extract self r
       = inr {| response := txt; gen_model := model self;
                tokens_used := PInt (counter "eval_count" r + counter "prompt_eval_count" r) |}.
Proof.
  intros ([txt Ht] & He & Hp). exists txt. split; [done|].
  destruct r as [c attrs|d]; simpl in *.
  - unfold counter. simpl. rewrite py_add_counters by done. simpl. congruence.
  - unfold dict_getitem. destruct (d !! "message") as [[| | | | |m]|] eqn:E; try done.
    simpl. unfold dict_getitem. rewrite Ht. simpl.
    unfold counter. simpl. by rewrite py_add_counters.
Qed.

(** X30.  When the engine's answer (object with attributes, or nested dict)
    carries its text and each of its two counters is missing or an integer,
    [generate_response] returns one result with the answer's text, the
    configured model, and tokens_used equal to eval_count +
    prompt_eval_count, a missing counter counting 0. *)
Theorem tokens_used_is_sum self u dc history r :
  client_chat (client self) (model self) (build_messages (bsp dc) u history) = inr r ->
  supported_shape r ->
  exists g,
    snd (generate_response bsp self u dc history) = inr g
    /\ Some (response g) = text_of r
    /\ gen_model g = model self
    /\ tokens_used g = PInt (counter "eval_count" r + counter "prompt_eval_count" r).
Proof.
  intros Hc Hs. destruct (extract_ok self r Hs) as (txt & Ht & He).
  eexists. unfold generate_response, try_except, bind, call, lift.
  rewrite Hc, He. simpl. by repeat split.
Qed.
End GenerateResponseFacts.

(** With 20 turns of history the dispatched list has 22 messages, more than
    the 21 the specification allows. *)
Lemma dispatched_22 :
  exists msgs,
    fst (generate_response Examples.prompt (Examples.service Examples.engine) "q"
           (202412, 8, "平日", DataExporter.zero_summary)
           (Some (replicate 20 Examples.turn)))
    = [EngineChat "qwen2.5:7b" msgs]
    /\ ~ (length msgs <= 21)%nat.
Proof.
  eexists. split; [vm_compute; reflexivity|]. simpl. lia.
Qed.

Lemma tokens_used_is_sum_witness :
  exists g,
    snd (generate_response Examples.prompt (Examples.service Examples.engine) "q"
           (202412, 8, "平日", DataExporter.zero_summary) None) = inr g
    /\ tokens_used g = PInt 7.
Proof.
  destruct (tokens_used_is_sum Examples.prompt (Examples.service Examples.engine) "q"
              (202412, 8, "平日", DataExporter.zero_summary) None
              (ChatResponse (PStr "ok") {[ "eval_count" := PInt 7 ]}))
    as (g & Hg & _ & _ & Ht).
  - reflexivity.
  - vm_compute. split; [by eexists|done].
  - exists g. split; [exact Hg|]. rewrite Ht. vm_compute. reflexivity.
Defined.

(** C7.  The normalisation fails for a counter that is absent in the way the
    client's response object carries it, as an attribute with the value None:
    the engine answers with the text "ok", eval_count 7 and prompt_eval_count
    None, so that the absent counter counting 0 the sum would be 7; yet
    [generate_response] returns no result and raises Exception after its one
    chat call. *)
Theorem none_counter_raises :
  exists r msgs msg,
    client_chat MoreExamples.engine_null_counter "qwen2.5:7b" msgs = inr r
    /\ text_of r = Some (PStr "ok")
    /\ counters r !! "eval_count" = Some (PInt 7)
    /\ counters r !! "prompt_eval_count" = Some PNone
    /\ counter "eval_count" r + counter "prompt_eval_count" r = 7
    /\ generate_response Examples.prompt
         (Examples.service MoreExamples.engine_null_counter) "q" MoreExamples.dc_8 None
       = ([EngineChat "qwen2.5:7b" msgs], inl (Exception msg)).
Proof.
  do 3 eexists. split_and!; reflexivity.
Qed.
(** ** check_health *)

Lemma str_eqb_true s v : str_eqb s v = true <-> v = PStr s.
Proof.
  destruct v; simpl; try (split; done).
  rewrite bool_decide_eq_true. split; congruence.
Qed.

Lemma existsb_str_eqb s (l : list pyval) :
  existsb (str_eqb s) l = true <-> PStr s ∈ l.
Proof.
  rewrite existsb_exists. split.
  - intros (v & Hin & ->%str_eqb_true). by apply list_elem_of_In.
  - intros Hin. exists (PStr s). split; [by apply list_elem_of_In|by apply str_eqb_true].
Qed.

Lemma model_name_of_dict entry :
  model_name_of (PDict entry) = inr (ManifestSpec.entry_name entry).
Proof.
  unfold model_name_of, ManifestSpec.entry_name, dict_get.
  by destruct (entry !! "name"), (entry !! "model").
Qed.

Lemma model_names_of_entries l entries :
  mapM ManifestSpec.as_dict l = Some entries ->
  rmapM model_name_of l = inr (map ManifestSpec.entry_name entries).
Proof.
  rewrite mapM_Some. induction 1 as [|v entry l entries Hv _ IH]; [reflexivity|].
  destruct v; try discriminate. simpl in Hv. injection Hv as ->.
  cbn [rmapM]. rewrite model_name_of_dict, IH. reflexivity.
Qed.

Lemma model_names_of_entries_inv l names :
  rmapM model_name_of l = inr names ->
  exists entries,
    mapM ManifestSpec.as_dict l = Some entries
    /\ names = map ManifestSpec.entry_name entries.
Proof.
  revert names. induction l as [|v l IH]; intros names; cbn [rmapM].
  - intros [= <-]. by exists [].
  - destruct v as [| | | | |entry]; try discriminate.
    rewrite model_name_of_dict. cbn [rbind].
    destruct (rmapM model_name_of l) as [|names'] eqn:E; [discriminate|].
    intros [= <-]. destruct (IH names' eq_refl) as (entries & Hm & ->).
    exists (entry :: entries). split; [|reflexivity].
    apply mapM_Some. constructor; [done|]. by apply mapM_Some.
Qed.

(** A string has no 'get': the comprehension gets through a list of strings
    only when there is none. *)
Lemma model_names_of_strings (l : list string) names :
  rmapM model_name_of (map PStr l) = inr names -> l = [] /\ names = [].
Proof. destruct l; [by intros [= <-]|discriminate]. Qed.

Lemma chars_strings s :
  exists l, chars s = map PStr l /\ length l = String.length s.
Proof.
  induction s as [|a s (l & IH & Hl)]; [by exists []|].
  exists (String a EmptyString :: l). simpl. by rewrite IH, Hl.
Qed.

(** The names [check_health] works with are the manifest the engine
    returned, and it has names to work with only when a manifest was
    returned. *)
Lemma returned_manifest_iff c names :
  ManifestSpec.returned_manifest c = Some names <-> manifest c = inr names.
Proof.
  unfold ManifestSpec.returned_manifest, manifest.
  destruct (client_list c) as [e|[models|d]]; cbn [rbind model_names_of].
  - done.
  - split; by intros [= ->].
  - unfold ManifestSpec.entries_of, dict_get.
    destruct (d !! "models") as [v|]; cbn; [|split; by intros [= <-]].
    destruct v as [| | |s|l|m]; cbn; try done.
    + destruct (chars_strings s) as (l & -> & Hl). rewrite <- Hl.
      destruct (decide (length l = 0%nat)) as [->%nil_length_inv|Hn]; cbn.
      * split; by intros [= <-].
      * split; [done|]. intros [-> _]%model_names_of_strings. done.
    + split.
      * destruct (mapM _ l) as [entries|] eqn:E; [|done].
        intros [= <-]. by apply model_names_of_entries.
      * intros (entries & -> & ->)%model_names_of_entries_inv. done.
    + rewrite <- (map_map fst PStr).
      destruct (decide (size m = 0%nat)) as [->%map_size_empty_iff|Hn]; cbn.
      * rewrite map_to_list_empty. split; by intros [= <-].
      * split; [done|]. intros [Hl _]%model_names_of_strings.
        apply fmap_nil_inv, map_to_list_empty_iff in Hl. subst.
        by rewrite map_size_empty in Hn.
Qed.


End OllamaFacts.

(* ===================================================================== *)
(** * Properties of the request models and of the chat route              *)
(* ===================================================================== *)

Section ChatFacts.
Import ChatModels ChatSpec.

Lemma validate_month_accepts v :
  accepted (validate_month v) <-> 100000 <= v <= 999912.
Proof.
  unfold accepted, validate_month.
  destruct (Z.leb_spec 100000 v), (Z.leb_spec v 999912); simpl;
    split; try (intros [? [=]]); try lia; eauto.
Qed.

Lemma validate_hour_accepts v :
  accepted (validate_hour v) <-> 0 <= v <= 23.
Proof.
  unfold accepted, validate_hour.
  destruct (Z.ltb_spec v 0), (Z.ltb_spec 23 v); simpl;
    split; try (intros [? [=]]); try lia; eauto.
Qed.

Lemma validate_ChatMessage_inr t t' :
  validate_ChatMessage t = inr t' -> t' = t /\ turn_ok t.
Proof.
  unfold validate_ChatMessage, turn_ok.
  destruct (bool_decide _) eqn:Er; simpl; [|done].
  apply bool_decide_eq_true in Er.
  destruct (Z.ltb_spec (len (cm_content t)) 1); [done|].
  destruct (Z.ltb_spec 10000 (len (cm_content t))); [done|].
  intros [= <-]. split; [done|]. split; [done|lia].
Qed.

Lemma validate_ChatMessage_inl t e :
  validate_ChatMessage t = inl e -> exists msg, e = ValidationError msg.
Proof.
  unfold validate_ChatMessage.
  repeat (match goal with |- context [if ?b then _ else _] => destruct b end);
    intros [= <-]; eauto.
Qed.

Lemma rmapM_validate_inr h h' :
  rmapM validate_ChatMessage h = inr h' -> h' = h /\ Forall turn_ok h.
Proof.
  revert h'. induction h as [|t h IH]; intros h'; simpl.
  - intros [= <-]. by split.
  - destruct (validate_ChatMessage t) as [|t'] eqn:Et; [done|]. simpl.
    destruct (rmapM validate_ChatMessage h) as [|h''] eqn:Eh; [done|]. simpl.
    intros [= <-]. apply validate_ChatMessage_inr in Et as [-> Hok].
    destruct (IH h'' eq_refl) as [-> Hall]. split; [done|by constructor].
Qed.

Lemma rmapM_validate_inl h e :
  rmapM validate_ChatMessage h = inl e -> exists msg, e = ValidationError msg.
Proof.
  induction h as [|t h IH]; simpl; [done|].
  destruct (validate_ChatMessage t) as [e'|t'] eqn:Et; simpl.
  - intros [= <-]. by eapply validate_ChatMessage_inl.
  - destruct (rmapM validate_ChatMessage h) as [e'|h''] eqn:Eh; simpl; [|done].
    intros [= <-]. by apply IH.
Qed.

Lemma validate_DataContext_inl c e :
  validate_DataContext c = inl e -> exists msg, e = ValidationError msg.
Proof.
  unfold validate_DataContext, validate_hour, validate_day_type.
  destruct (validate_month (month c)); simpl; [intros [= <-]; eauto|].
  repeat (match goal with |- context [if ?b then _ else _] => destruct b; simpl end);
    intros [= <-]; eauto.
Qed.

Lemma validate_DataContext_inr c c' :
  validate_DataContext c = inr c' ->
  c' = c /\ 100000 <= month c <= 999912 /\ 0 <= hour c <= 23
  /\ day_type c ∈ ["平日"; "假日"].
Proof.
  unfold validate_DataContext. intros H.
  destruct (validate_month (month c)) as [|m] eqn:Em; [done|].
  assert (m = month c) as ->.
  { unfold validate_month in Em. by destruct (negb _); simplify_eq. }
  assert (accepted (validate_month (month c))) as Hm by by eexists.
  apply validate_month_accepts in Hm. simpl in H.
  destruct (validate_hour (hour c)) as [|h] eqn:Eh; [done|].
  assert (h = hour c) as ->.
  { unfold validate_hour in Eh.
    by repeat (destruct (_ <? _) in Eh; simplify_eq). }
  assert (accepted (validate_hour (hour c))) as Hh by by eexists.
  apply validate_hour_accepts in Hh. simpl in H.
  unfold validate_day_type in H.
  destruct (bool_decide _) eqn:Ed; [|done]. simpl in H.
  apply bool_decide_eq_true in Ed. simplify_eq. by destruct c.
Qed.

Lemma validate_ChatRequest_inl r e :
  validate_ChatRequest r = inl e -> exists msg, e = ValidationError msg.
Proof.
  unfold validate_ChatRequest.
  destruct (len (message r) <? 1); simpl; [intros [= <-]; eauto|].
  destruct (500 <? len (message r)); simpl; [intros [= <-]; eauto|].
  destruct (validate_DataContext (context r)) as [e'|c] eqn:Ec; simpl.
  { intros [= <-]. by eapply validate_DataContext_inl. }
  destruct (20 <? Z.of_nat (length (history r))); simpl; [intros [= <-]; eauto|].
  destruct (rmapM validate_ChatMessage (history r)) as [e'|h] eqn:Eh; simpl; [|done].
  intros [= <-]. by eapply rmapM_validate_inl.
Qed.

Lemma validate_ChatRequest_inr r r' :
  validate_ChatRequest r = inr r' ->
  r' = r /\ chat_ok r
  /\ 100000 <= month (context r) <= 999912 /\ 0 <= hour (context r) <= 23.
Proof.
  unfold validate_ChatRequest, chat_ok.
  destruct (Z.ltb_spec (len (message r)) 1); simpl; [done|].
  destruct (Z.ltb_spec 500 (len (message r))); simpl; [done|].
  destruct (validate_DataContext (context r)) as [e'|c] eqn:Ec; simpl; [done|].
  apply validate_DataContext_inr in Ec as (-> & Hm & Hh & _).
  destruct (Z.ltb_spec 20 (Z.of_nat (length (history r)))); simpl; [done|].
  destruct (rmapM validate_ChatMessage (history r)) as [e'|h] eqn:Eh; simpl; [done|].
  apply rmapM_validate_inr in Eh as [-> Hall].
  intros [= <-]. split; [by destruct r|]. split_and!; try done; lia.
Qed.

Section RouteFacts.
Variable bsp : ChatRoutes.DataContextDict -> string.
Variable env : ChatRoutes.Services.

Lemma rejected_before_any_access body :
  ~ accepted (validate_ChatRequest body) ->
  exists msg,
    validate_ChatRequest body = inl (ValidationError msg)
    /\ ChatRoutes.send_message bsp env body = ([], ChatRoutes.HttpError 422 msg).
Proof.
  intros Hn. unfold ChatRoutes.send_message.
  destruct (validate_ChatRequest body) as [e|r] eqn:E.
  - apply validate_ChatRequest_inl in E as [msg ->]. by exists msg.
  - destruct Hn. by eexists.
Qed.

(** C9 (as amended).  [validate_month] accepts a month exactly when it lies
    in [100000, 999912], the hour is accepted exactly when it lies in
    [0, 23], and a request whose month or hour is outside its range is
    rejected with a ValidationError (answer 422) without any access to the
    cache or the engine. *)
Theorem month_and_hour_validation body :
  let c := context body in
  (accepted (validate_month (month c)) <-> 100000 <= month c <= 999912)
  /\ (accepted (validate_hour (hour c)) <-> 0 <= hour c <= 23)
  /\ (~ (100000 <= month c <= 999912 /\ 0 <= hour c <= 23) ->
      exists msg,
        validate_ChatRequest body = inl (ValidationError msg)
        /\ ChatRoutes.send_message bsp env body = ([], ChatRoutes.HttpError 422 msg)).
Proof.
  intros c. split; [apply validate_month_accepts|].
  split; [apply validate_hour_accepts|].
  intros Hn. apply rejected_before_any_access. intros [r Hr].
  apply validate_ChatRequest_inr in Hr as (_ & _ & Hm & Hh). by apply Hn.
Qed.

(** C10.  A chat request is rejected with a ValidationError (answer 422),
    without any access to the cache or the engine, unless its message has 1 to
    500 characters, its history has at most 20 turns, and every turn has a
    role among user, assistant, system and a content of 1 to 10000
    characters. *)
Theorem chat_request_validation body :
  ~ chat_ok body ->
  exists msg,
    validate_ChatRequest body = inl (ValidationError msg)
    /\ ChatRoutes.send_message bsp env body = ([], ChatRoutes.HttpError 422 msg).
Proof.
  intros Hn. apply rejected_before_any_access. intros [r Hr].
  apply validate_ChatRequest_inr in Hr as (_ & Hok & _). by apply Hn.
Qed.

End RouteFacts.

(** The month 100000 is accepted, although it lies outside
    [100001, 999912]. *)
Lemma month_100000_accepted :
  accepted (validate_month 100000) /\ ~ (100001 <= 100000 <= 999912).
Proof. split; [by eexists|lia]. Qed.

Lemma month_and_hour_validation_witness :
  exists msg,
    ChatRoutes.send_message Examples.prompt Examples.env
      (Examples.request "q" {| month := 99999; hour := 8; day_type := "平日" |} [])
    = ([], ChatRoutes.HttpError 422 msg).
Proof.
  destruct (month_and_hour_validation Examples.prompt Examples.env
              (Examples.request "q" {| month := 99999; hour := 8; day_type := "平日" |} []))
    as (_ & _ & H).
  destruct H as (msg & _ & Hs); [simpl; lia|]. by exists msg.
Defined.

Lemma chat_request_validation_witness :
  exists msg,
    ChatRoutes.send_message Examples.prompt Examples.env
      (Examples.request "" Examples.context_8 [])
    = ([], ChatRoutes.HttpError 422 msg).
Proof.
  destruct (chat_request_validation Examples.prompt Examples.env
              (Examples.request "" Examples.context_8 [])) as (msg & _ & Hs).
  - unfold chat_ok. simpl. unfold len. simpl. lia.
  - by exists msg.
Defined.

End ChatFacts.

(* ===================================================================== *)
(** * More on the data exporter                                           *)
(* ===================================================================== *)

Section ExporterMore.
Import DataExporter Spec ExporterSpec.
Local Open Scope Qc_scope.

Ltac in_cols :=
  cbn; repeat first [apply list_elem_of_here | apply list_elem_of_further].


Lemma column_total_opt df c : column_total df c = inr (opt_sum c df).
Proof.
  unfold opt_sum. destruct (has_col df (Num c)) eqn:E.
  - by apply column_total_ok.
  - unfold column_total. by rewrite E.
Qed.

Lemma age_pct_opt df c :
  age_pct df (map (fun r => num r avg_total_users) (rows df)) (Some (total df)) c
  = inr (opt_pct c df).
Proof.
  unfold opt_pct. destruct (has_col df (Num c)) eqn:E.
  - by apply age_pct_ok.
  - unfold age_pct. by rewrite E.
Qed.

(** The part of [get_context_summary] that can still fail once the total
    column is there: the gender percentages and the top locations. *)
Lemma get_context_summary_steps lookup_dict m h d df :
  lookup_dict !! (m, h, d) = Some df ->
  empty df = false ->
  has_col df (Num avg_total_users) = true ->
  get_context_summary lookup_dict m h d
  = rbind
      (if gt0 (Some (total df)) then
         rbind (weighted_pct df (map (fun r => num r avg_total_users) (rows df))
                  (Some (total df)) sex_1) (fun a1 =>
         rbind (weighted_pct df (map (fun r => num r avg_total_users) (rows df))
                  (Some (total df)) sex_2) (fun a2 => inr (a1, a2)))
       else inr (Some 0, Some 0))
      (fun avg_sex =>
         rbind (rmapM (location_of df (lng_col df)) (take 5 (ranked df)))
           (fun top =>
              inr {| total_records := length (rows df);
                     total_users := Some (total df);
                     duration_distribution :=
                       {| under_10min := opt_sum avg_users_under_10min df;
                          min_10_30 := opt_sum avg_users_10_30min df;
                          over_30min := opt_sum avg_users_over_30min df |};
                     gender_distribution :=
                       {| male_pct := fst avg_sex; female_pct := snd avg_sex |};
                     age_distribution := map (fun c => (c, opt_pct c df)) age_columns;
                     top_locations := top |})).
Proof.
  intros Hl He Ht. unfold get_context_summary. rewrite Hl, He.
  rewrite getcol_ok by done. rewrite rbind_inr. cbv zeta.
  rewrite Series_sum_map. fold users. change (sum_over users (rows df)) with (total df).
  rewrite !column_total_opt, !rbind_inr.
  destruct (if gt0 (Some (total df)) then _ else _) as [e|avg_sex]; [reflexivity|].
  rewrite !rbind_inr.
  rewrite (rmapM_ok _ (fun i => (age_ i, opt_pct (age_ i) df)))
    by (intros i _; by rewrite age_pct_opt).
  rewrite rbind_inr, age_pct_opt, rbind_inr, nlargest_ok, rbind_inr by done.
  reflexivity.
Qed.

Lemma location_of_opt df r :
  has_col df (Num avg_total_users) = true ->
  has_col df (Num lat) = true ->
  has_col df (Num (lng_col df)) = true ->
  location_of df (lng_col df) r = inr (location_opt df r).
Proof.
  intros H1 H2 H3. unfold location_of, row_getitem. by rewrite H1, H2, H3.
Qed.

Lemma location_of_fails df r :
  has_col df (Num lat) && has_col df (Num (lng_col df)) = false ->
  exists k, location_of df (lng_col df) r = inl (KeyError k).
Proof.
  intros H. unfold location_of, row_getitem.
  destruct (has_col df (Num lat)); [|by eexists].
  simpl in H. rewrite H. by eexists.
Qed.

Lemma ranked_nonempty df : empty df = false -> exists r l, take 5 (ranked df) = r :: l.
Proof.
  intros He. pose proof (ranked_perm df) as Hp.
  destruct (ranked df) as [|r l] eqn:E.
  - apply Permutation_nil in Hp. unfold empty in He. by rewrite Hp in He.
  - by exists r, (take 4 l).
Qed.

Lemma gender_opt df :
  summary_ready df = true ->
  (if gt0 (Some (total df)) then
     rbind (weighted_pct df (map (fun r => num r avg_total_users) (rows df))
              (Some (total df)) sex_1) (fun a1 =>
     rbind (weighted_pct df (map (fun r => num r avg_total_users) (rows df))
              (Some (total df)) sex_2) (fun a2 => inr (a1, a2)))
   else inr (Some 0, Some 0))
  = inr (pct sex_1 df, pct sex_2 df).
Proof.
  unfold summary_ready. intros [_ H]%andb_prop.
  destruct (gt0 (Some (total df))) eqn:G.
  - simpl in H. apply andb_prop in H as [H1 H2].
    rewrite !weighted_pct_ok, !rbind_inr by done. unfold pct.
    simpl in G. apply bool_decide_eq_true in G.
    by destruct (decide (0 < total df)).
  - unfold pct. simpl in G. apply bool_decide_eq_false in G.
    by destruct (decide (0 < total df)).
Qed.

(** What [get_context_summary] computes whenever it returns. *)
Lemma get_context_summary_general lookup_dict m h d df :
  lookup_dict !! (m, h, d) = Some df ->
  empty df = false ->
  summary_ready df = true ->
  get_context_summary lookup_dict m h d
  = inr {| total_records := length (rows df);
           total_users := Some (total df);
           duration_distribution :=
             {| under_10min := opt_sum avg_users_under_10min df;
                min_10_30 := opt_sum avg_users_10_30min df;
                over_30min := opt_sum avg_users_over_30min df |};
           gender_distribution :=
             {| male_pct := pct sex_1 df; female_pct := pct sex_2 df |};
           age_distribution := map (fun c => (c, opt_pct c df)) age_columns;
           top_locations := map (location_opt df) (take 5 (ranked df)) |}.
Proof.
  intros Hl He Hr. pose proof Hr as Hr'. unfold summary_ready in Hr'.
  apply andb_prop in Hr' as [[[H1 H2]%andb_prop H3]%andb_prop _].
  rewrite (get_context_summary_steps _ _ _ _ df) by done.
  rewrite gender_opt, rbind_inr by done.
  rewrite (rmapM_ok _ (location_opt df)) by (intros; by apply location_of_opt).
  reflexivity.
Qed.

Lemma get_context_summary_fails lookup_dict m h d df :
  lookup_dict !! (m, h, d) = Some df ->
  empty df = false ->
  summary_ready df = false ->
  exists k, get_context_summary lookup_dict m h d = inl (KeyError k).
Proof.
  intros Hl He.
  { intros Hn. destruct (has_col df (Num avg_total_users)) eqn:H1.
    2:{ unfold get_context_summary, getcol. rewrite Hl, He, H1. by eexists. }
    rewrite (get_context_summary_steps _ _ _ _ df) by done.
    unfold summary_ready in Hn. rewrite H1 in Hn.
    destruct (gt0 (Some (total df))) eqn:G.
    - destruct (has_col df (Num sex_1)) eqn:S1.
      2:{ unfold weighted_pct at 1, getcol. rewrite S1. by eexists. }
      rewrite weighted_pct_ok, rbind_inr by done.
      destruct (has_col df (Num sex_2)) eqn:S2.
      2:{ unfold weighted_pct, getcol. rewrite S2. by eexists. }
      rewrite weighted_pct_ok, !rbind_inr by done.
      cbn [andb orb negb] in Hn. rewrite andb_true_r in Hn.
      destruct (ranked_nonempty df He) as (r & l & ->). cbn [rmapM].
      destruct (location_of_fails df r Hn) as [k ->]. by eexists.
    - rewrite rbind_inr. cbn [andb orb negb] in Hn. rewrite andb_true_r in Hn.
      destruct (ranked_nonempty df He) as (r & l & ->). cbn [rmapM].
      destruct (location_of_fails df r Hn) as [k ->]. by eexists. }
Qed.

(** X1.  On a frame with rows and columns, [get_context_summary] returns
    exactly when the frame has the total column, the latitude, the longitude
    under one of its two names and, if the total is positive, the two gender
    columns; otherwise it raises a KeyError. *)
Theorem summary_returns_iff lookup_dict m h d df :
  lookup_dict !! (m, h, d) = Some df ->
  empty df = false ->
  (is_ok (get_context_summary lookup_dict m h d) <-> summary_ready df = true)
  /\ (summary_ready df = false ->
      exists k, get_context_summary lookup_dict m h d = inl (KeyError k)).
Proof.
  intros Hl He. split; [|by apply get_context_summary_fails]. split.
  - intros [s Hs]. destruct (summary_ready df) eqn:Hr; [done|].
    destruct (get_context_summary_fails _ _ _ _ _ Hl He Hr) as [k Hk]. congruence.
  - intros Hr. eexists. by apply get_context_summary_general.
Qed.

(* ================= (a) absent optional columns ================= *)

(** X2.  A dwell-time column or an age column that the frame does not have
    counts as 0.0, in the totals, in the age percentages and in every entry
    of top_locations; its absence is no error. *)
Theorem absent_columns_count_zero lookup_dict m h d df :
  lookup_dict !! (m, h, d) = Some df ->
  empty df = false ->
  summary_ready df = true ->
  exists s,
    get_context_summary lookup_dict m h d = inr s
    /\ (has_col df (Num avg_users_under_10min) = false ->
        under_10min (duration_distribution s) = Some 0
        /\ Forall (fun e => loc_under_10min e = Some 0) (top_locations s))
    /\ (has_col df (Num avg_users_10_30min) = false ->
        min_10_30 (duration_distribution s) = Some 0
        /\ Forall (fun e => loc_10_30min e = Some 0) (top_locations s))
    /\ (has_col df (Num avg_users_over_30min) = false ->
        over_30min (duration_distribution s) = Some 0
        /\ Forall (fun e => loc_over_30min e = Some 0) (top_locations s))
    /\ (forall c, c ∈ age_columns -> has_col df (Num c) = false ->
        (c, Some 0) ∈ age_distribution s).
Proof.
  intros Hl He Hr. eexists. split; [by apply get_context_summary_general|].
  cbn [duration_distribution under_10min min_10_30 over_30min top_locations
       age_distribution].
  split_and!.
  - intros H. unfold opt_sum. rewrite H. split; [done|].
    apply Forall_forall. intros e He'.
    apply list_elem_of_In, in_map_iff in He' as (r & <- & _).
    cbn. unfold row_get. by rewrite H.
  - intros H. unfold opt_sum. rewrite H. split; [done|].
    apply Forall_forall. intros e He'.
    apply list_elem_of_In, in_map_iff in He' as (r & <- & _).
    cbn. unfold row_get. by rewrite H.
  - intros H. unfold opt_sum. rewrite H. split; [done|].
    apply Forall_forall. intros e He'.
    apply list_elem_of_In, in_map_iff in He' as (r & <- & _).
    cbn. unfold row_get. by rewrite H.
  - intros c Hc H. apply list_elem_of_In, in_map_iff. exists c.
    split; [|by apply list_elem_of_In]. unfold opt_pct. by rewrite H.
Qed.

(* ================= (b) NaN counts as zero ================= *)

Lemma sum_over_map {A B} (f : B -> Qc) (g : A -> B) (l : list A) :
  sum_over f (map g l) = sum_over (fun x => f (g x)) l.
Proof. induction l as [|x l IH]; [reflexivity|]. simpl. by rewrite IH. Qed.

Lemma total_fillna0 df : total (fillna0 df) = total df.
Proof. unfold total, fillna0. cbn [rows]. by rewrite sum_over_map. Qed.

Lemma column_sum_fillna0 c df : column_sum c (fillna0 df) = column_sum c df.
Proof. unfold column_sum, fillna0. cbn [rows]. by rewrite sum_over_map. Qed.

Lemma weighted_average_fillna0 c df :
  weighted_average c (fillna0 df) = weighted_average c df.
Proof.
  unfold weighted_average. rewrite total_fillna0. f_equal.
  unfold fillna0. cbn [rows]. by rewrite sum_over_map.
Qed.

Lemma pct_fillna0 c df : pct c (fillna0 df) = pct c df.
Proof. unfold pct. by rewrite total_fillna0, weighted_average_fillna0. Qed.

Lemma summary_ready_fillna0 df : summary_ready (fillna0 df) = summary_ready df.
Proof. unfold summary_ready. by rewrite total_fillna0. Qed.

Lemma empty_fillna0 df : empty (fillna0 df) = empty df.
Proof. unfold empty, fillna0. cbn [rows columns]. by destruct (rows df). Qed.

(** X3.  In the record count, the total, the duration totals and the gender
    and age percentages, a NaN cell counts as 0: the summary of a frame and
    the summary of the frame with every NaN replaced by 0 agree on them. *)
Theorem nan_counts_as_zero lookup_dict m h d df :
  lookup_dict !! (m, h, d) = Some df ->
  empty df = false ->
  summary_ready df = true ->
  exists s s',
    get_context_summary lookup_dict m h d = inr s
    /\ get_context_summary (<[(m, h, d) := fillna0 df]> lookup_dict) m h d = inr s'
    /\ total_records s' = total_records s
    /\ total_users s' = total_users s
    /\ duration_distribution s' = duration_distribution s
    /\ gender_distribution s' = gender_distribution s
    /\ age_distribution s' = age_distribution s.
Proof.
  intros Hl He Hr. do 2 eexists.
  split; [by apply get_context_summary_general|].
  split.
  { apply (get_context_summary_general _ _ _ _ (fillna0 df)).
    - apply lookup_insert_eq.
    - by rewrite empty_fillna0.
    - by rewrite summary_ready_fillna0. }
  cbn [total_records total_users duration_distribution gender_distribution
       age_distribution].
  split_and!.
  - unfold fillna0. cbn [rows]. by rewrite length_map.
  - by rewrite total_fillna0.
  - unfold opt_sum. by rewrite !column_sum_fillna0.
  - by rewrite !pct_fillna0.
  - apply map_ext. intros c. unfold opt_pct. by rewrite pct_fillna0.
Qed.

(* ================= (c) the percentages add up ================= *)

Lemma sum_over_scale {A} (k : Qc) (f : A -> Qc) (l : list A) :
  sum_over (fun x => k * f x) l = k * sum_over f l.
Proof. induction l as [|x l IH]; simpl; [ring|]. rewrite IH. ring. Qed.

Lemma sum_over_columns (cs : list ncol) (l : list Row) :
  sum_list (map (fun c => sum_over (fun r => nz (num r c) * users r) l) cs)
  = sum_over (fun r => sum_list (map (fun c => nz (num r c)) cs) * users r) l.
Proof.
  induction cs as [|c cs IH]; simpl.
  - induction l as [|r l IHl]; simpl; [reflexivity|]. rewrite <-IHl. ring.
  - rewrite IH, <-sum_over_plus. apply sum_over_ext. intros r _. ring.
Qed.

Lemma weighted_averages_sum (cs : list ncol) df :
  total df <> 0 ->
  sum_list (map (fun c => weighted_average c df) cs)
  = sum_list (map (fun c => sum_over (fun r => nz (num r c) * users r) (rows df)) cs)
    / total df.
Proof.
  intros Hne. unfold weighted_average. induction cs as [|c cs IH]; simpl.
  - by field.
  - rewrite IH. by field.
Qed.

Lemma weighted_averages_add_up (cs : list ncol) (K : Qc) df :
  0 < total df ->
  (forall r, r ∈ rows df -> users r <> 0 ->
     sum_list (map (fun c => nz (num r c)) cs) = K) ->
  sum_list (map (fun c => weighted_average c df) cs) = K.
Proof.
  intros Hpos Hrow.
  assert (total df <> 0) as Hne by (intros E; rewrite E in Hpos; by apply Qclt_not_eq in Hpos).
  rewrite weighted_averages_sum, sum_over_columns by done.
  rewrite (sum_over_ext _ (fun r => K * users r)).
  - rewrite sum_over_scale. fold (total df). by field.
  - intros r Hr. destruct (decide (users r = 0)) as [->|Hu]; [ring|].
    by rewrite Hrow.
Qed.

(** X4.  When the total is positive and the two gender cells of every row
    that has users add up to K (100 for percentages), male_pct + female_pct
    of the summary is K. *)
Theorem gender_percentages_add_up lookup_dict m h d df (K : Qc) :
  lookup_dict !! (m, h, d) = Some df ->
  empty df = false ->
  summary_ready df = true ->
  0 < total df ->
  (forall r, r ∈ rows df -> users r <> 0 ->
     nz (num r sex_1) + nz (num r sex_2) = K) ->
  exists s a b,
    get_context_summary lookup_dict m h d = inr s
    /\ male_pct (gender_distribution s) = Some a
    /\ female_pct (gender_distribution s) = Some b
    /\ a + b = K.
Proof.
  intros Hl He Hr Hpos Hrow. do 3 eexists.
  split; [by apply get_context_summary_general|].
  cbn [gender_distribution male_pct female_pct]. unfold pct.
  destruct (decide (0 < total df)); [|done].
  split; [reflexivity|]. split; [reflexivity|].
  pose proof (weighted_averages_add_up [sex_1; sex_2] K df Hpos) as H.
  simpl in H. rewrite Qcplus_0_r in H. apply H.
  intros r Hin Hu. rewrite Qcplus_0_r. by apply Hrow.
Qed.

(** X5.  When the total is positive and the ten age cells of every row that
    has users add up to K, the ten age percentages of the summary, listed
    under age_1 .. age_9, age_other in this order, add up to K. *)
Theorem age_percentages_add_up lookup_dict m h d df (K : Qc) :
  lookup_dict !! (m, h, d) = Some df ->
  rows df <> [] ->
  well_formed df = true ->
  0 < total df ->
  (forall r, r ∈ rows df -> users r <> 0 ->
     sum_list (map (fun c => nz (num r c)) age_columns) = K) ->
  exists s vs,
    get_context_summary lookup_dict m h d = inr s
    /\ map fst (age_distribution s) = age_columns
    /\ map snd (age_distribution s) = map Some vs
    /\ sum_list vs = K.
Proof.
  intros Hl Hne Hwf Hpos Hrow.
  eexists. exists (map (fun c => weighted_average c df) age_columns).
  split; [by apply get_context_summary_ok|].
  cbn [age_distribution]. rewrite !map_map. cbn [fst snd].
  split; [by rewrite map_id|].
  split; [|by apply weighted_averages_add_up].
  apply map_ext. intros c. unfold pct. by destruct (decide (0 < total df)).
Qed.

(* ================= (d) bounds ================= *)

Lemma weighted_average_bounds (c : ncol) (lo hi : Qc) df :
  0 < total df ->
  (forall r, r ∈ rows df -> 0 <= users r) ->
  (forall r, r ∈ rows df -> lo <= nz (num r c) <= hi) ->
  lo <= weighted_average c df <= hi.
Proof.
  intros Hpos Hw Hb.
  assert (total df <> 0) as Hne
    by (intros E; rewrite E in Hpos; by apply Qclt_not_eq in Hpos).
  assert (lo * total df <= sum_over (fun r => nz (num r c) * users r) (rows df)
          <= hi * total df) as [Hlo Hhi].
  { unfold total. induction (rows df) as [|r l IH]; simpl.
    - rewrite !Qcmult_0_r. split; apply Qcle_refl.
    - destruct IH as [IH1 IH2].
      + intros x Hx. apply Hw. by right.
      + intros x Hx. apply Hb. by right.
      + destruct (Hb r) as [B1 B2]; [left|].
        assert (0 <= users r) as Hu by (apply Hw; left).
        rewrite !Qcmult_plus_distr_r. split; apply Qcplus_le_compat; try done.
        * by apply Qcmult_le_compat_r.
        * by apply Qcmult_le_compat_r. }
  unfold weighted_average. split.
  - apply Qcmult_lt_0_le_reg_r with (total df); [done|].
    by rewrite (Qcmult_comm (_ / _)), Qcmult_div_r.
  - apply Qcmult_lt_0_le_reg_r with (total df); [done|].
    by rewrite (Qcmult_comm (_ / _)), Qcmult_div_r.
Qed.

(** X6.  When the total is positive, no row has a negative total and every
    gender and age cell lies between lo and hi, then every gender and age
    percentage of the summary lies between lo and hi. *)
Theorem percentages_within_bounds lookup_dict m h d df (lo hi : Qc) :
  lookup_dict !! (m, h, d) = Some df ->
  rows df <> [] ->
  well_formed df = true ->
  0 < total df ->
  (forall r, r ∈ rows df -> 0 <= users r) ->
  (forall r c, r ∈ rows df -> c ∈ sex_1 :: sex_2 :: age_columns ->
     lo <= nz (num r c) <= hi) ->
  exists s a b,
    get_context_summary lookup_dict m h d = inr s
    /\ male_pct (gender_distribution s) = Some a /\ lo <= a <= hi
    /\ female_pct (gender_distribution s) = Some b /\ lo <= b <= hi
    /\ Forall (fun p => exists v, snd p = Some v /\ lo <= v <= hi) (age_distribution s).
Proof.
  intros Hl Hne Hwf Hpos Hw Hb. do 3 eexists.
  split; [by apply get_context_summary_ok|].
  cbn [gender_distribution male_pct female_pct age_distribution]. unfold pct.
  destruct (decide (0 < total df)); [|done].
  split; [reflexivity|].
  split; [apply weighted_average_bounds; try done; intros; apply Hb; [done|in_cols]|].
  split; [reflexivity|].
  split; [apply weighted_average_bounds; try done; intros; apply Hb; [done|in_cols]|].
  apply Forall_forall. intros p Hp.
  apply list_elem_of_In, in_map_iff in Hp as (c & <- & Hc). eexists. split; [reflexivity|].
  apply weighted_average_bounds; try done. intros r Hr. apply Hb; [done|].
  do 2 right. by apply list_elem_of_In.
Qed.

Lemma has_col_rename_other df c :
  c <> Num lon -> c <> Num lng ->
  has_col (rename lon lng df) c = has_col df c.
Proof.
  intros H1 H2. unfold has_col, rename. cbn [columns].
  apply bool_decide_ext. rewrite list_elem_of_In, in_map_iff. split.
  - intros (x & Hx & Hin). apply list_elem_of_In.
    destruct (decide (x = Num lon)); [congruence|]. by subst.
  - intros Hin. exists c. split; [|by apply list_elem_of_In].
    by destruct (decide (c = Num lon)).
Qed.

Lemma has_col_rename_lng df :
  has_col df (Num lon) = true -> has_col (rename lon lng df) (Num lng) = true.
Proof.
  intros H. apply bool_decide_eq_true in H. apply bool_decide_eq_true.
  unfold rename. cbn [columns]. apply list_elem_of_In, in_map_iff.
  exists (Num lon). split; [by destruct (decide _)|by apply list_elem_of_In].
Qed.

Lemma has_col_with_lng_other df c :
  c <> Num lon -> c <> Num lng -> has_col (with_lng df) c = has_col df c.
Proof.
  intros. unfold with_lng. destruct (_ && _); [|done]. by apply has_col_rename_other.
Qed.

Lemma has_col_with_lng df :
  has_col (with_lng df) (Num lng) = has_col df (Num lng) || has_col df (Num lon).
Proof.
  unfold with_lng. destruct (has_col df (Num lng)) eqn:E1; [done|].
  destruct (has_col df (Num lon)) eqn:E2; simpl; [by apply has_col_rename_lng|done].
Qed.

Lemma required_cols_with_lng df :
  forallb (has_col (with_lng df)) required_cols = export_ready df.
Proof.
  unfold export_ready, required_cols, required_but_lng, age_columns.
  cbn [forallb map app].
  rewrite has_col_with_lng, !has_col_with_lng_other by done.
  destruct (has_col df (Num lng) || has_col df (Num lon)).
  - cbn [andb]. by rewrite !andb_true_r.
  - cbn [andb]. by rewrite !andb_false_r.
Qed.

Lemma rmapM_check (P : column -> bool) (l : list column) :
  rmapM (fun c => if P c then inr c else inl (KeyError (col_name c))) l
  = if forallb P l then inr l
    else match filter (fun c => P c = false) l with
         | c :: _ => inl (KeyError (col_name c))
         | [] => inr l
         end.
Proof.
  induction l as [|c l IH]; [reflexivity|].
  cbn [rmapM forallb]. rewrite filter_cons. destruct (P c) eqn:E; cbn.
  - rewrite IH. destruct (decide (true = false)); [done|].
    destruct (forallb P l); [done|]. by destruct (filter _ l).
  - by destruct (decide (false = false)).
Qed.

Lemma rows_with_lng df : rows (with_lng df) = map (lng_row df) (rows df).
Proof.
  unfold with_lng, lng_row. destruct (_ && _); [reflexivity|].
  by rewrite map_id.
Qed.

Lemma convert_value_float x : convert_value (PFloat x) = PFloat (Some (nz x)).
Proof. by destruct x. Qed.

Lemma convert_cell df r c :
  has_col df (Num lng) || has_col df (Num lon) = true ->
  convert_value (cell_value (lng_row df r) c) = exported_value df r c.
Proof.
  intros H. unfold lng_row, exported_value, lng_col.
  destruct (has_col df (Num lng)) eqn:E1; cbn [negb andb].
  - destruct c as [c|]; cbn [cell_value].
    + rewrite convert_value_float. by destruct (decide (c = lng)) as [->|].
    + by destruct (day_type_cell r).
  - simpl in H. rewrite H. destruct c as [c|]; cbn [cell_value num day_type_cell].
    + rewrite convert_value_float. by destruct (decide (c = lng)).
    + by destruct (day_type_cell r).
Qed.

Lemma export_to_json_ok lookup_dict m h d df :
  lookup_dict !! (m, h, d) = Some df ->
  empty df = false ->
  export_ready df = true ->
  export_to_json lookup_dict m h d = inr (map (exported_record df) (rows df)).
Proof.
  intros Hl He Hr.
  - unfold export_to_json. rewrite Hl, He. fold (with_lng df).
    unfold to_dict_records.
    rewrite rmapM_check, required_cols_with_lng, Hr, !rbind_inr.
    rewrite rows_with_lng, !map_map. f_equal. apply map_ext. intros r.
    unfold exported_record. rewrite map_map. apply map_ext. intros c. cbn [fst snd].
    f_equal. apply convert_cell.
    unfold export_ready in Hr. by apply andb_prop in Hr as [_ ?].
Qed.

(** X7.  On a frame with rows that has every required column (the longitude
    as lng or as lon), [export_to_json] returns one record per row, in row
    order, each with the 23 keys in the order of the source; a numeric value
    is the number of the cell, 0.0 where the cell is NaN, the lng value comes
    from the lon column when only that exists, and day_type is passed on. *)
Theorem export_to_json_records lookup_dict m h d df :
  lookup_dict !! (m, h, d) = Some df ->
  empty df = false ->
  export_ready df = true ->
  exists records,
    export_to_json lookup_dict m h d = inr records
    /\ records = map (exported_record df) (rows df)
    /\ length records = length (rows df)
    /\ Forall (fun rec => map fst rec = exported_keys) records.
Proof.
  intros Hl He Hr. eexists. split_and!; [by apply export_to_json_ok|reflexivity|..].
  - by rewrite length_map.
  - apply Forall_forall. intros rec Hrec.
    apply list_elem_of_In, in_map_iff in Hrec as (r & <- & _).
    unfold exported_record. rewrite map_map. cbn [fst]. reflexivity.
Qed.

Lemma forallb_false_filter {A} (P : A -> bool) (l : list A) :
  forallb P l = false ->
  exists c l', filter (fun c => P c = false) l = c :: l' /\ c ∈ l.
Proof.
  induction l as [|x l IH]; [done|].
  cbn [forallb]. rewrite filter_cons. destruct (P x) eqn:E; cbn.
  - intros H. destruct (IH H) as (c & l' & -> & Hc).
    destruct (decide (true = false)); [done|]. exists c, l'. split; [done|by right].
  - intros _. destruct (decide (false = false)); [|done]. eexists _, _. split; [done|left].
Qed.

Lemma export_to_json_fails lookup_dict m h d df :
  lookup_dict !! (m, h, d) = Some df ->
  empty df = false ->
  export_ready df = false ->
  exists c,
    c ∈ required_cols
    /\ export_to_json lookup_dict m h d = inl (KeyError (col_name c)).
Proof.
  intros Hl He Hr. unfold export_to_json. rewrite Hl, He. fold (with_lng df).
  unfold to_dict_records. rewrite rmapM_check, required_cols_with_lng, Hr.
  destruct (forallb_false_filter (has_col (with_lng df)) required_cols)
    as (c & l' & Hf & Hc); [by rewrite required_cols_with_lng|].
  rewrite Hf. by exists c.
Qed.

(** X8.  On a frame with rows and columns that lacks a required column (and
    has the longitude under neither name, if that is the one),
    [export_to_json] raises a KeyError and returns nothing. *)
Theorem export_to_json_missing_column lookup_dict m h d df :
  lookup_dict !! (m, h, d) = Some df ->
  empty df = false ->
  export_ready df = false ->
  (exists k, export_to_json lookup_dict m h d = inl (KeyError k))
  /\ ~ is_ok (export_to_json lookup_dict m h d).
Proof.
  intros Hl He Hr.
  destruct (export_to_json_fails _ _ _ _ _ Hl He Hr) as (c & Hc & Hx).
  split; [by eexists|]. intros [recs Hrecs]. congruence.
Qed.

Lemma summary_export_count lookup_dict m h d s records :
  get_context_summary lookup_dict m h d = inr s ->
  export_to_json lookup_dict m h d = inr records ->
  total_records s = length records.
Proof.
  intros Hs Hx.
  destruct (lookup_dict !! (m, h, d)) as [df|] eqn:Hl.
  2:{ unfold get_context_summary in Hs. unfold export_to_json in Hx.
      rewrite Hl in Hs, Hx. by simplify_eq. }
  destruct (empty df) eqn:He.
  { unfold get_context_summary in Hs. unfold export_to_json in Hx.
    rewrite Hl, He in Hs, Hx. by simplify_eq. }
  destruct (summary_ready df) eqn:Hr.
  2:{ destruct (get_context_summary_fails _ _ _ _ _ Hl He Hr) as [k Hk]. congruence. }
  rewrite (get_context_summary_general _ _ _ _ df) in Hs by done.
  destruct (export_ready df) eqn:Hx'.
  2:{ destruct (export_to_json_fails _ _ _ _ _ Hl He Hx') as (c & _ & Hc).
      congruence. }
  rewrite (export_to_json_ok _ _ _ _ df) in Hx by done.
  simplify_eq. cbn. by rewrite length_map.
Qed.

(** X10.  Whenever [get_context_summary] and [export_to_json] both return on
    a key, total_records of the summary is the number of exported records. *)
Theorem summary_and_export_agree lookup_dict m h d s records :
  get_context_summary lookup_dict m h d = inr s ->
  export_to_json lookup_dict m h d = inr records ->
  total_records s = length records.
Proof. apply summary_export_count. Qed.


Lemma summary_returns_iff_witness :
  is_ok (get_context_summary Examples.cache_AB 202412 8 "平日")
  /\ exists k,
       get_context_summary MoreExamples.cache_no_lat 202412 8 "平日" = inl (KeyError k).
Proof.
  split.
  - destruct (summary_returns_iff Examples.cache_AB 202412 8 "平日" Examples.frame_AB)
      as [Hiff _]; [vm_compute; reflexivity..|].
    apply Hiff. vm_compute. reflexivity.
  - destruct (summary_returns_iff MoreExamples.cache_no_lat 202412 8 "平日"
                MoreExamples.frame_no_lat) as [_ Hf]; [vm_compute; reflexivity..|].
    apply Hf. vm_compute. reflexivity.
Defined.

Lemma absent_columns_count_zero_witness :
  exists s,
    get_context_summary MoreExamples.cache_no_under_10 202412 8 "平日" = inr s
    /\ under_10min (duration_distribution s) = Some 0
    /\ Forall (fun e => loc_under_10min e = Some 0) (top_locations s).
Proof.
  destruct (absent_columns_count_zero MoreExamples.cache_no_under_10 202412 8 "平日"
              MoreExamples.frame_no_under_10) as (s & Hs & H & _);
    [vm_compute; reflexivity..|].
  exists s. split; [exact Hs|]. apply H. vm_compute. reflexivity.
Defined.

Lemma nan_counts_as_zero_witness :
  exists s s',
    get_context_summary Examples.cache_nan 202412 8 "平日" = inr s
    /\ get_context_summary
         (<[(202412%Z, 8%Z, "平日") := fillna0 Examples.frame_nan]> Examples.cache_nan)
         202412 8 "平日" = inr s'
    /\ duration_distribution s' = duration_distribution s.
Proof.
  destruct (nan_counts_as_zero Examples.cache_nan 202412 8 "平日" Examples.frame_nan)
    as (s & s' & Hs & Hs' & _ & _ & Hd & _); [vm_compute; reflexivity..|].
  by exists s, s'.
Defined.

Lemma rows_AB_cases (P : Row -> Prop) :
  P Examples.row_A -> P Examples.row_B ->
  forall r, r ∈ rows Examples.frame_AB -> P r.
Proof.
  intros HA HB r Hr. cbn in Hr.
  apply elem_of_cons in Hr as [->|Hr]; [exact HA|].
  apply elem_of_cons in Hr as [->|Hr]; [exact HB|].
  by apply elem_of_nil in Hr.
Defined.

Lemma gender_percentages_add_up_witness :
  exists s a b,
    get_context_summary Examples.cache_AB 202412 8 "平日" = inr s
    /\ male_pct (gender_distribution s) = Some a
    /\ female_pct (gender_distribution s) = Some b
    /\ a + b = Examples.q 100.
Proof.
  apply (gender_percentages_add_up Examples.cache_AB 202412 8 "平日" Examples.frame_AB).
  - vm_compute. reflexivity.
  - vm_compute. reflexivity.
  - vm_compute. reflexivity.
  - vm_compute. reflexivity.
  - apply (rows_AB_cases (fun r => users r <> 0 ->
             nz (num r sex_1) + nz (num r sex_2) = Examples.q 100));
      intros _; apply Qc_is_canon; vm_compute; reflexivity.
Defined.

Lemma age_percentages_add_up_witness :
  exists s vs,
    get_context_summary Examples.cache_AB 202412 8 "平日" = inr s
    /\ map fst (age_distribution s) = age_columns
    /\ map snd (age_distribution s) = map Some vs
    /\ sum_list vs = Examples.q 100.
Proof.
  apply (age_percentages_add_up Examples.cache_AB 202412 8 "平日" Examples.frame_AB).
  - vm_compute. reflexivity.
  - discriminate.
  - vm_compute. reflexivity.
  - vm_compute. reflexivity.
  - apply (rows_AB_cases (fun r => users r <> 0 ->
             sum_list (map (fun c => nz (num r c)) age_columns) = Examples.q 100));
      intros _; apply Qc_is_canon; vm_compute; reflexivity.
Defined.

Lemma percentages_within_bounds_witness :
  exists s a b,
    get_context_summary Examples.cache_AB 202412 8 "平日" = inr s
    /\ male_pct (gender_distribution s) = Some a /\ 0 <= a <= Examples.q 100
    /\ female_pct (gender_distribution s) = Some b /\ 0 <= b <= Examples.q 100.
Proof.
  destruct (percentages_within_bounds Examples.cache_AB 202412 8 "平日"
              Examples.frame_AB 0 (Examples.q 100))
    as (s & a & b & Hs & Ha & Ha' & Hb & Hb' & _).
  - vm_compute. reflexivity.
  - discriminate.
  - vm_compute. reflexivity.
  - vm_compute. reflexivity.
  - apply (rows_AB_cases (fun r => 0 <= users r)); vm_compute; discriminate.
  - intros r c Hr Hc. revert r Hr.
    repeat (apply elem_of_cons in Hc as [->|Hc];
            [apply (rows_AB_cases (fun r => 0 <= nz (num r _) <= Examples.q 100));
             split; vm_compute; discriminate|]).
    by apply elem_of_nil in Hc.
  - by exists s, a, b.
Defined.

Lemma export_to_json_records_witness :
  exists records,
    export_to_json Examples.cache_AB 202412 8 "平日" = inr records
    /\ length records = 2%nat
    /\ Forall (fun rec => map fst rec = exported_keys) records.
Proof.
  destruct (export_to_json_records Examples.cache_AB 202412 8 "平日" Examples.frame_AB)
    as (records & Hx & _ & Hlen & Hkeys); [vm_compute; reflexivity..|].
  by exists records.
Defined.

Lemma export_to_json_missing_column_witness :
  exists k,
    export_to_json MoreExamples.cache_no_under_10 202412 8 "平日" = inl (KeyError k).
Proof.
  apply (export_to_json_missing_column MoreExamples.cache_no_under_10 202412 8 "平日"
           MoreExamples.frame_no_under_10); vm_compute; reflexivity.
Defined.

Lemma summary_and_export_agree_witness :
  exists s records,
    get_context_summary Examples.cache_AB 202412 8 "平日" = inr s
    /\ export_to_json Examples.cache_AB 202412 8 "平日" = inr records
    /\ total_records s = length records.
Proof.
  destruct (get_context_summary Examples.cache_AB 202412 8 "平日") as [e|s] eqn:Hs;
    [vm_compute in Hs; discriminate|].
  destruct (export_to_json Examples.cache_AB 202412 8 "平日") as [e|records] eqn:Hx;
    [vm_compute in Hx; discriminate|].
  exists s, records. split; [reflexivity|]. split; [reflexivity|].
  exact (summary_and_export_agree Examples.cache_AB 202412 8 "平日" s records Hs Hx).
Defined.

Lemma export_to_json_no_nan_witness :
  exists records,
    export_to_json Examples.cache_nan 202412 8 "平日" = inr records
    /\ forall rec kv, rec ∈ records -> kv ∈ rec -> snd kv <> PFloat None.
Proof.
  destruct (export_to_json Examples.cache_nan 202412 8 "平日") as [e|records] eqn:Hx;
    [vm_compute in Hx; discriminate|].
  exists records. split; [reflexivity|]. intros rec kv.
  exact (export_to_json_no_nan Examples.cache_nan 202412 8 "平日" records rec kv Hx).
Defined.

End ExporterMore.

(* ===================================================================== *)
(** * More on the engine service                                          *)
(* ===================================================================== *)

Section OllamaMore.
Import OllamaService OllamaSpec.

Section GenerateResponseMore.
Context {D : Type} (bsp : D -> string).

(** X11.  When the chat call fails, [generate_response] has made that one
    call and no other (no retry) and raises Exception with the text
    "Failed to generate response: " followed by the text of the cause. *)
Theorem generate_response_failure self u dc history cause :
  client_chat (client self) (model self) (build_messages (bsp dc) u history) = inl cause ->
  generate_response bsp self u dc history
  = ([EngineChat (model self) (build_messages (bsp dc) u history)],
     inl (Exception ("Failed to generate response: " +:+ str_of_exn cause))).
Proof.
  intros H. unfold generate_response, try_except, bind, call, raise. by rewrite H.
Qed.

(** X12.  Whatever goes wrong in [generate_response], what it raises is an
    Exception whose text is "Failed to generate response: " followed by the
    text of a cause. *)
Theorem generate_response_raises_only_Exception self u dc history e :
  snd (generate_response bsp self u dc history) = inl e ->
  exists cause, e = Exception ("Failed to generate response: " +:+ str_of_exn cause).
Proof.
  unfold generate_response, try_except, bind, call, lift, raise.
  destruct (client_chat _ _ _) as [c|r]; simpl.
  - intros [= <-]. by eexists.
  - destruct (extract self r) as [c|g]; simpl; [|done]. intros [= <-]. by eexists.
Qed.

(** X13.  A history of at most 20 turns is dispatched whole: the one chat
    call gets the system instruction, every turn in order, then the new user
    turn. *)
Theorem short_history_kept_whole self u dc (h : list Message) :
  (length h <= 20)%nat ->
  fst (generate_response bsp self u dc (Some h))
  = [EngineChat (model self) (system_turn (bsp dc) :: h ++ [user_turn u])].
Proof.
  intros Hlen. rewrite generate_response_log, build_messages_spec. simpl.
  replace (length h - 20)%nat with 0%nat by lia. reflexivity.
Qed.

(** X14.  When the engine answers and one of the two counters of the answer
    is present with the value None, [generate_response] raises (the sum of
    the counters cannot be formed) after its one chat call. *)
Theorem null_counter_fails self u dc history r :
  client_chat (client self) (model self) (build_messages (bsp dc) u history) = inr r ->
  (counters r !! "eval_count" = Some PNone
   \/ counters r !! "prompt_eval_count" = Some PNone) ->
  exists msg,
    generate_response bsp self u dc history
    = ([EngineChat (model self) (build_messages (bsp dc) u history)],
       inl (Exception msg)).
Proof.
  intros Hc Hn.
  assert (exists e, extract self r = inl e) as [e He].
  { assert (forall d : gmap string pyval,
              d !! "eval_count" = Some PNone \/ d !! "prompt_eval_count" = Some PNone ->
              exists e, py_add (dict_get d "eval_count" (PInt 0))
                               (dict_get d "prompt_eval_count" (PInt 0)) = inl e) as Hadd.
    { intros d [H|H]; unfold dict_get; rewrite H; simpl; [by eexists|].
      destruct (default _ _); by eexists. }
    destruct r as [c attrs|d]; simpl in *.
    - destruct (Hadd attrs Hn) as [e ->]. by eexists.
    - destruct (dict_getitem d "message") as [e|msg]; [by eexists|]. simpl.
      destruct (subscript msg "content") as [e|c]; [by eexists|]. simpl.
      destruct (Hadd d Hn) as [e ->]. by eexists. }
  eexists. unfold generate_response, try_except, bind, call, lift, raise.
  rewrite Hc, He. reflexivity.
Qed.

(** X15.  When the engine answers with a dict that has no 'message' key,
    [generate_response] raises Exception
    "Failed to generate response: 'message'". *)
Theorem dict_without_message_fails self u dc history d :
  client_chat (client self) (model self) (build_messages (bsp dc) u history)
    = inr (ChatDict d) ->
  d !! "message" = None ->
  snd (generate_response bsp self u dc history)
  = inl (Exception "Failed to generate response: 'message'").
Proof.
  intros Hc Hm. unfold generate_response, try_except, bind, call, lift, raise.
  rewrite Hc. simpl. unfold dict_getitem. rewrite Hm. reflexivity.
Qed.

End GenerateResponseMore.

(** X16.  The dict [check_health] returns after its one manifest query:
    available_models is the manifest (empty when the query or its decoding
    failed), model_loaded holds exactly when the status is connected, error
    is None exactly when the status is connected, and the status is one of
    connected, degraded, disconnected. *)
Theorem check_health_invariants self :
  exists hlt,
    check_health self = ([EngineList], inr hlt)
    /\ available_models hlt
       = match manifest (client self) with inr names => names | inl _ => [] end
    /\ (model_loaded hlt = true <-> status hlt = "connected")
    /\ (error hlt = None <-> status hlt = "connected")
    /\ status hlt ∈ ["connected"; "degraded"; "disconnected"].
Proof.
  unfold check_health, manifest, try_except, bind, call, lift, ret.
  destruct (client_list (client self)) as [e|resp]; simpl.
  - eexists. split; [reflexivity|]. simpl.
    split_and!; try (split; done); try done;
      repeat first [apply list_elem_of_here | apply list_elem_of_further].
  - destruct (model_names_of resp) as [e|names]; simpl.
    + eexists. split; [reflexivity|]. simpl.
      split_and!; try (split; done); try done;
      repeat first [apply list_elem_of_here | apply list_elem_of_further].
    + eexists. split; [reflexivity|]. simpl.
      destruct (existsb _ names).
      * split_and!; try (split; done); try done;
      repeat first [apply list_elem_of_here | apply list_elem_of_further].
      * split_and!; try (split; done); try done;
      repeat first [apply list_elem_of_here | apply list_elem_of_further].
Qed.

Lemma rmapM_fails {A B} (f : A -> Result B) (l : list A) x :
  x ∈ l -> (exists e, f x = inl e) -> exists e, rmapM f l = inl e.
Proof.
  intros Hin [e He]. induction Hin as [x l|x y l Hin IH]; cbn [rmapM].
  - rewrite He. by eexists.
  - destruct (f y); [by eexists|]. cbn [rbind].
    destruct (IH He) as [e' ->]. by eexists.
Qed.

(** X17.  When the engine answers the manifest query with a dict whose
    'models' value cannot be iterated (None or a number), or holds an entry
    that is not a dict, [check_health] reports disconnected, with no model
    and an error text, although the engine answered. *)
Theorem malformed_manifest_disconnected self d :
  client_list (client self) = inr (ListDict d) ->
  (exists v, d !! "models" = Some v /\ EngineSpec.not_iterable v)
  \/ (exists l m, d !! "models" = Some (PList l) /\ m ∈ l /\ forall dm, m <> PDict dm) ->
  exists hlt,
    check_health self = ([EngineList], inr hlt)
    /\ status hlt = "disconnected" /\ model_loaded hlt = false
    /\ available_models hlt = [] /\ is_Some (error hlt).
Proof.
  intros Hc Hbad.
  assert (exists e, model_names_of (ListDict d) = inl e) as [e He].
  { simpl. unfold dict_get. destruct Hbad as [(v & -> & Hv)|(l & m & -> & Hin & Hm)]; simpl.
    - destruct v; try done; by eexists.
    - apply (rmapM_fails _ _ m Hin).
      destruct m; try by eexists. by destruct (Hm d0). }
  eexists. unfold check_health, try_except, bind, call, lift, ret.
  rewrite Hc. simpl in *. rewrite He. simpl. split; [reflexivity|]. simpl.
  split_and!; try done.
Qed.

(** X18.  When the engine answers the manifest query with a dict without a
    'models' key, [check_health] reports degraded, with an empty list of
    available models and an error text. *)
Theorem manifest_without_models_degraded self d :
  client_list (client self) = inr (ListDict d) ->
  d !! "models" = None ->
  exists hlt,
    check_health self = ([EngineList], inr hlt)
    /\ status hlt = "degraded" /\ model_loaded hlt = false
    /\ available_models hlt = [] /\ is_Some (error hlt).
Proof.
  intros Hc Hm. eexists. unfold check_health, try_except, bind, call, lift, ret.
  rewrite Hc. simpl. unfold dict_get. rewrite Hm. simpl.
  split; [reflexivity|]. simpl. split_and!; done.
Qed.

Lemma generate_response_failure_witness :
  generate_response Examples.prompt (Examples.service Examples.engine_down) "q"
    MoreExamples.dc_8 None
  = ([EngineChat "qwen2.5:7b"
        [system_turn "system prompt"; user_turn "q"]],
     inl (Exception "Failed to generate response: connection refused")).
Proof.
  exact (generate_response_failure Examples.prompt
           (Examples.service Examples.engine_down) "q" MoreExamples.dc_8 None
           (ConnectionError "connection refused") eq_refl).
Defined.

Lemma generate_response_raises_only_Exception_witness :
  exists cause,
    Exception "Failed to generate response: connection refused"
    = Exception ("Failed to generate response: " +:+ str_of_exn cause).
Proof.
  exact (generate_response_raises_only_Exception Examples.prompt
           (Examples.service Examples.engine_down) "q" MoreExamples.dc_8 None
           (Exception "Failed to generate response: connection refused") eq_refl).
Defined.

Lemma short_history_kept_whole_witness :
  fst (generate_response Examples.prompt (Examples.service Examples.engine) "q"
         MoreExamples.dc_8 (Some [Examples.turn; Examples.turn]))
  = [EngineChat "qwen2.5:7b"
       [system_turn "system prompt"; Examples.turn; Examples.turn; user_turn "q"]].
Proof.
  apply (short_history_kept_whole Examples.prompt (Examples.service Examples.engine) "q"
           MoreExamples.dc_8 [Examples.turn; Examples.turn]).
  simpl. lia.
Defined.

Lemma null_counter_fails_witness :
  exists msg,
    snd (generate_response Examples.prompt
           (Examples.service MoreExamples.engine_null_counter) "q" MoreExamples.dc_8 None)
    = inl (Exception msg).
Proof.
  destruct (null_counter_fails Examples.prompt
              (Examples.service MoreExamples.engine_null_counter) "q" MoreExamples.dc_8 None
              (ChatResponse (PStr "ok")
                 {[ "eval_count" := PInt 7; "prompt_eval_count" := PNone ]}))
    as [msg Hm].
  - reflexivity.
  - right. vm_compute. reflexivity.
  - exists msg. by rewrite Hm.
Defined.

Lemma dict_without_message_fails_witness :
  snd (generate_response Examples.prompt
         (Examples.service MoreExamples.engine_bare_dict) "q" MoreExamples.dc_8 None)
  = inl (Exception "Failed to generate response: 'message'").
Proof.
  apply (dict_without_message_fails Examples.prompt
           (Examples.service MoreExamples.engine_bare_dict) "q" MoreExamples.dc_8 None ∅).
  - reflexivity.
  - vm_compute. reflexivity.
Defined.

Lemma malformed_manifest_disconnected_witness :
  exists hlt,
    check_health (Examples.service MoreExamples.engine_bad_manifest)
    = ([EngineList], inr hlt)
    /\ status hlt = "disconnected".
Proof.
  destruct (malformed_manifest_disconnected
              (Examples.service MoreExamples.engine_bad_manifest)
              {[ "models" := PList [PStr "qwen2.5:7b"] ]})
    as (hlt & Hh & Hs & _).
  - reflexivity.
  - right. exists [PStr "qwen2.5:7b"], (PStr "qwen2.5:7b").
    split; [vm_compute; reflexivity|]. split; [left|discriminate].
  - by exists hlt.
Defined.

Lemma manifest_without_models_degraded_witness :
  exists hlt,
    check_health (Examples.service MoreExamples.engine_no_models)
    = ([EngineList], inr hlt)
    /\ status hlt = "degraded" /\ available_models hlt = [].
Proof.
  destruct (manifest_without_models_degraded
              (Examples.service MoreExamples.engine_no_models) ∅)
    as (hlt & Hh & Hs & _ & Ha & _).
  - reflexivity.
  - vm_compute. reflexivity.
  - by exists hlt.
Defined.

End OllamaMore.

(* ===================================================================== *)
(** * More on the request models and the routes                           *)
(* ===================================================================== *)

Section RouteMore.
Import ChatModels ChatSpec RouteSpec.

Lemma validate_DataContext_ok c : context_ok c -> validate_DataContext c = inr c.
Proof.
  intros (Hm & Hh & Hd). unfold validate_DataContext, validate_month, validate_hour,
    validate_day_type.
  destruct (Z.leb_spec 100000 (month c)); [|lia].
  destruct (Z.leb_spec (month c) 999912); [|lia]. simpl.
  destruct (Z.ltb_spec (hour c) 0); [lia|].
  destruct (Z.ltb_spec 23 (hour c)); [lia|]. simpl.
  rewrite bool_decide_true by done. simpl. by destruct c.
Qed.

Lemma validate_ChatMessage_ok t : turn_ok t -> validate_ChatMessage t = inr t.
Proof.
  intros (Hr & Hc). unfold validate_ChatMessage.
  rewrite bool_decide_true by done. simpl.
  destruct (Z.ltb_spec (len (cm_content t)) 1); [lia|].
  destruct (Z.ltb_spec 10000 (len (cm_content t))); [lia|]. done.
Qed.

Lemma validate_ChatRequest_ok r : request_ok r -> validate_ChatRequest r = inr r.
Proof.
  intros ((Hm & Hl & Ht) & Hc). unfold validate_ChatRequest.
  destruct (Z.ltb_spec (len (message r)) 1); [lia|].
  destruct (Z.ltb_spec 500 (len (message r))); [lia|]. simpl.
  rewrite validate_DataContext_ok by done. simpl.
  destruct (Z.ltb_spec 20 (Z.of_nat (length (history r)))); [lia|].
  rewrite (rmapM_ok _ id).
  - simpl. rewrite map_id. by destruct r.
  - intros t Hin. apply validate_ChatMessage_ok.
    rewrite Forall_forall in Ht. by apply Ht.
Qed.

(** X19.  The request model accepts a body exactly when the message has 1 to
    500 characters, the history has at most 20 turns, each with an allowed
    role and 1 to 10000 characters, the month lies in [100000, 999912], the
    hour in [0, 23] and day_type is one of the two labels; an accepted body
    is passed on unchanged. *)
Theorem validate_ChatRequest_accepts r :
  (accepted (validate_ChatRequest r) <-> request_ok r)
  /\ (forall r', validate_ChatRequest r = inr r' -> r' = r).
Proof.
  split; [split|].
  - intros [r' Hr]. pose proof Hr as Hr'.
    apply validate_ChatRequest_inr in Hr as (_ & Hok & _). split; [done|].
    unfold validate_ChatRequest in Hr'.
    destruct (len (message r) <? 1); [done|].
    destruct (500 <? len (message r)); [done|]. simpl in Hr'.
    destruct (validate_DataContext (context r)) as [|c] eqn:Ec; [done|].
    by apply validate_DataContext_inr in Ec as (_ & ? & ? & ?).
  - intros H. exists r. by apply validate_ChatRequest_ok.
  - intros r' Hr. by apply validate_ChatRequest_inr in Hr as (-> & _).
Qed.

Lemma check_health_returns self :
  exists hlt, OllamaService.check_health self = ([EngineList], inr hlt).
Proof.
  unfold OllamaService.check_health, try_except, bind, call, lift, ret.
  destruct (OllamaService.client_list _) as [e|resp]; simpl; [by eexists|].
  destruct (OllamaService.model_names_of resp); simpl; by eexists.
Qed.

Lemma get_context_summary_raises_KeyError lookup_dict m h d e :
  DataExporter.get_context_summary lookup_dict m h d = inl e ->
  exists k, e = KeyError k.
Proof.
  intros H. destruct (lookup_dict !! (m, h, d)) as [df|] eqn:Hl.
  2:{ unfold DataExporter.get_context_summary in H. by rewrite Hl in H. }
  destruct (DataExporter.empty df) eqn:He.
  { unfold DataExporter.get_context_summary in H. by rewrite Hl, He in H. }
  destruct (ExporterSpec.summary_ready df) eqn:Hr.
  - rewrite (get_context_summary_general _ _ _ _ df) in H by done. done.
  - destruct (get_context_summary_fails _ _ _ _ _ Hl He Hr) as [k Hk].
    exists k. congruence.
Qed.

Lemma check_health_eq self :
  OllamaService.check_health self = ([EngineList], inr (health_of self)).
Proof.
  unfold OllamaService.check_health, health_of, OllamaSpec.manifest,
    try_except, bind, call, lift, ret.
  destruct (OllamaService.client_list _) as [e|resp]; simpl; [reflexivity|].
  destruct (OllamaService.model_names_of resp); reflexivity.
Qed.

Lemma health_of_connected self :
  OllamaService.status (health_of self) = "connected" <-> model_available self.
Proof.
  unfold health_of, model_available.
  destruct (OllamaSpec.manifest _) as [e|names]; simpl.
  - split; [done|]. by intros (? & ? & _).
  - destruct (existsb _ names) eqn:E.
    + apply existsb_str_eqb in E. split; [|done]. intros _. by exists names.
    + split; [done|]. intros (? & [= <-] & Hin%existsb_str_eqb). congruence.
Qed.

Section SendMessageMore.
Variable bsp : ChatRoutes.DataContextDict -> string.
Variable env : ChatRoutes.Services.

Local Abbreviation svc := (ChatRoutes.ollama_service env).

Lemma body_not_connected request hlt :
  OllamaService.check_health svc = ([EngineList], inr hlt) ->
  OllamaService.status hlt <> "connected" ->
  ChatRoutes.send_message_body bsp env request
  = ([EngineList],
     inl (HTTPException 503
            ("Ollama service is not available. "
             +:+ default "None" (OllamaService.error hlt)))).
Proof.
  intros Hh Hs. unfold ChatRoutes.send_message_body, try_except, bind.
  rewrite Hh. rewrite bool_decide_false by done. reflexivity.
Qed.

Lemma body_summary_fails request hlt k :
  OllamaService.check_health svc = ([EngineList], inr hlt) ->
  OllamaService.status hlt = "connected" ->
  DataExporter.get_context_summary (ChatRoutes.lookup_dict env)
    (month (context request)) (hour (context request)) (day_type (context request))
  = inl (KeyError k) ->
  ChatRoutes.send_message_body bsp env request
  = ([EngineList; CacheLookup (key_of request)],
     inl (HTTPException 500 ("Failed to generate response: '" +:+ k +:+ "'"))).
Proof.
  intros Hh Hs Hk. unfold ChatRoutes.send_message_body, try_except, bind, call.
  rewrite Hh. rewrite bool_decide_true by done. cbn -[String.append].
  rewrite Hk. reflexivity.
Qed.

Lemma body_generate request hlt s :
  OllamaService.check_health svc = ([EngineList], inr hlt) ->
  OllamaService.status hlt = "connected" ->
  DataExporter.get_context_summary (ChatRoutes.lookup_dict env)
    (month (context request)) (hour (context request)) (day_type (context request))
  = inr s ->
  (length (history request) <= 20)%nat ->
  ChatRoutes.send_message_body bsp env request
  = ([EngineList; CacheLookup (key_of request);
      EngineChat (OllamaService.model svc) (messages_of bsp request s)],
     match OllamaService.client_chat (OllamaService.client svc)
             (OllamaService.model svc) (messages_of bsp request s) with
     | inl cause =>
         inl (HTTPException 500
                ("Failed to generate response: Failed to generate response: "
                 +:+ str_of_exn cause))
     | inr r =>
         match OllamaService.extract svc r with
         | inl cause =>
             inl (HTTPException 500
                    ("Failed to generate response: Failed to generate response: "
                     +:+ str_of_exn cause))
         | inr g =>
             match make_ChatResponse (OllamaService.response g) (ChatRoutes.now_ms env)
                     (OllamaService.gen_model g) (OllamaService.tokens_used g) with
             | inl e => inl (HTTPException 500
                              ("Failed to generate response: " +:+ str_of_exn e))
             | inr resp => inr resp
             end
         end
     end).
Proof.
  intros Hh Hs Hk Hlen.
  assert (OllamaService.build_messages
            (bsp (month (context request), hour (context request),
                  day_type (context request), s))
            (message request) (Some (turns_of request))
          = messages_of bsp request s) as Hm.
  { rewrite build_messages_spec. unfold messages_of.
    change (default [] (Some (turns_of request))) with (turns_of request). cbv zeta.
    replace (length (turns_of request) - 20)%nat with 0%nat; [reflexivity|].
    unfold turns_of. rewrite length_map. lia. }
  unfold ChatRoutes.send_message_body, try_except, bind, call.
  rewrite Hh. rewrite bool_decide_true by done. cbn -[String.append].
  rewrite Hk. fold (turns_of request).
  unfold OllamaService.generate_response, try_except, bind, call, lift, raise.
  rewrite Hm.
  destruct (OllamaService.client_chat _ _ _) as [cause|r]; [reflexivity|].
  destruct (OllamaService.extract svc r) as [cause|g]; [reflexivity|].
  cbn -[String.append].
  unfold make_ChatResponse.
  destruct (OllamaService.response g); try reflexivity.
  destruct (lax_int _); reflexivity.
Qed.

(** X20.  For a valid request, when the configured model is not in a
    returned manifest (engine down or model absent), POST /chat/message
    answers 503 with the health error in its detail, after the one manifest
    query: the cache is not read and no chat is dispatched. *)
Theorem send_message_unavailable body :
  request_ok body ->
  ~ model_available svc ->
  ChatRoutes.send_message bsp env body
  = ([EngineList],
     ChatRoutes.HttpError 503
       ("Ollama service is not available. "
        +:+ default "None" (OllamaService.error (health_of svc)))).
Proof.
  intros Hok Hn. unfold ChatRoutes.send_message.
  rewrite validate_ChatRequest_ok by done.
  rewrite (body_not_connected body (health_of svc)); [done|apply check_health_eq|].
  by rewrite health_of_connected.
Qed.

(** X21.  For a valid request with the model available, when
    [get_context_summary] raises, POST /chat/message answers 500 with
    "Failed to generate response: " and the text of the exception, after the
    manifest query and the cache lookup: no chat is dispatched. *)
Theorem send_message_summary_failure body e :
  request_ok body ->
  model_available svc ->
  DataExporter.get_context_summary (ChatRoutes.lookup_dict env)
    (month (context body)) (hour (context body)) (day_type (context body)) = inl e ->
  ChatRoutes.send_message bsp env body
  = ([EngineList; CacheLookup (key_of body)],
     ChatRoutes.HttpError 500 ("Failed to generate response: " +:+ str_of_exn e)).
Proof.
  intros Hok Ha He. unfold ChatRoutes.send_message.
  rewrite validate_ChatRequest_ok by done.
  destruct (get_context_summary_raises_KeyError _ _ _ _ _ He) as [k ->].
  rewrite (body_summary_fails body (health_of svc) k);
    [done|apply check_health_eq|by apply health_of_connected|done].
Qed.

(** X22.  For a valid request with the model available and a summary, when
    the chat call fails, POST /chat/message answers 500; the detail carries
    the prefix "Failed to generate response: " twice (once from the service,
    once from the route) before the text of the cause; there was one chat
    call. *)
Theorem send_message_chat_failure body s cause :
  request_ok body ->
  model_available svc ->
  DataExporter.get_context_summary (ChatRoutes.lookup_dict env)
    (month (context body)) (hour (context body)) (day_type (context body)) = inr s ->
  OllamaService.client_chat (OllamaService.client svc) (OllamaService.model svc)
    (messages_of bsp body s) = inl cause ->
  ChatRoutes.send_message bsp env body
  = ([EngineList; CacheLookup (key_of body);
      EngineChat (OllamaService.model svc) (messages_of bsp body s)],
     ChatRoutes.HttpError 500
       ("Failed to generate response: Failed to generate response: "
        +:+ str_of_exn cause)).
Proof.
  intros Hok Ha Hs Hc. unfold ChatRoutes.send_message.
  rewrite validate_ChatRequest_ok by done.
  rewrite (body_generate body (health_of svc) s);
    [|apply check_health_eq|by apply health_of_connected|done|by destruct Hok as ((_ & ? & _) & _)].
  by rewrite Hc.
Qed.

(** X23.  For a valid request with the model available, a summary and an
    answer of a supported shape whose text is a string, POST /chat/message
    makes the manifest query, the cache lookup for the request's key and one
    chat call, in this order, the chat getting the system instruction, the
    whole history and the message; it answers 200 with the text, the clock,
    the configured model and the sum of the two counters. *)
Theorem send_message_success body s r txt :
  request_ok body ->
  model_available svc ->
  DataExporter.get_context_summary (ChatRoutes.lookup_dict env)
    (month (context body)) (hour (context body)) (day_type (context body)) = inr s ->
  OllamaService.client_chat (OllamaService.client svc) (OllamaService.model svc)
    (messages_of bsp body s) = inr r ->
  OllamaSpec.supported_shape r ->
  OllamaSpec.text_of r = Some (PStr txt) ->
  ChatRoutes.send_message bsp env body
  = ([EngineList; CacheLookup (key_of body);
      EngineChat (OllamaService.model svc) (messages_of bsp body s)],
     ChatRoutes.Http200
       {| cr_response := txt;
          cr_timestamp := ChatRoutes.now_ms env;
          cr_model := OllamaService.model svc;
          cr_tokens_used := OllamaSpec.counter "eval_count" r
                            + OllamaSpec.counter "prompt_eval_count" r |}).
Proof.
  intros Hok Ha Hs Hc Hshape Htxt. unfold ChatRoutes.send_message.
  rewrite validate_ChatRequest_ok by done.
  rewrite (body_generate body (health_of svc) s);
    [|apply check_health_eq|by apply health_of_connected|done|by destruct Hok as ((_ & ? & _) & _)].
  rewrite Hc.
  destruct (extract_ok svc r Hshape) as (txt' & Ht' & ->).
  rewrite Htxt in Ht'. simplify_eq. reflexivity.
Qed.

(** X24.  POST /chat/message always answers: with 200, or with an error of
    status 422, 500 or 503.  Its accesses are an initial part of: manifest
    query, cache lookup of the request's key, one chat call; so the cache is
    never read before the health check, and no chat goes out before the cache
    was read. *)
Theorem send_message_outcomes body :
  ((exists r, snd (ChatRoutes.send_message bsp env body) = ChatRoutes.Http200 r)
   \/ (exists c detail,
         snd (ChatRoutes.send_message bsp env body) = ChatRoutes.HttpError c detail
         /\ c ∈ [422; 500; 503]))
  /\ exists msgs,
       fst (ChatRoutes.send_message bsp env body)
       `prefix_of` [EngineList; CacheLookup (key_of body);
                    EngineChat (OllamaService.model svc) msgs].
Proof.
  unfold ChatRoutes.send_message.
  destruct (validate_ChatRequest body) as [e|request] eqn:Ev.
  { split; [right; eexists _, _; split; [reflexivity|left]|].
    exists []. apply prefix_nil. }
  apply validate_ChatRequest_inr in Ev as (-> & (_ & Hlen & _) & _).
  destruct (decide (OllamaService.status (health_of svc) = "connected")) as [Hs|Hs].
  2:{ rewrite (body_not_connected body (health_of svc));
        [|apply check_health_eq|done].
      split; [right; eexists _, _; split; [reflexivity|do 2 right; left]|].
      exists []. eexists. reflexivity. }
  destruct (DataExporter.get_context_summary (ChatRoutes.lookup_dict env)
              (month (context body)) (hour (context body)) (day_type (context body)))
    as [e|s] eqn:Hsum.
  { destruct (get_context_summary_raises_KeyError _ _ _ _ _ Hsum) as [k ->].
    rewrite (body_summary_fails body (health_of svc) k);
      [|apply check_health_eq|done|done].
    split; [right; eexists _, _; split; [reflexivity|right; left]|].
    exists []. eexists. reflexivity. }
  rewrite (body_generate body (health_of svc) s);
    [|apply check_health_eq|done|done|done].
  destruct (OllamaService.client_chat _ _ _) as [cause|r].
  { split; [|eexists; eexists; reflexivity].
    right. eexists _, _. split; [reflexivity|right; left]. }
  destruct (OllamaService.extract _ r) as [cause|g].
  { split; [|eexists; eexists; reflexivity].
    right. eexists _, _. split; [reflexivity|right; left]. }
  destruct (make_ChatResponse _ _ _ _) as [e'|resp].
  - split; [|eexists; eexists; reflexivity].
    right. eexists _, _. split; [reflexivity|right; left].
  - split; [|eexists; eexists; reflexivity]. left. by eexists.
Qed.

End SendMessageMore.

Section OtherRoutesMore.
Variable OLLAMA_MODEL : string.
Variable utcnow_iso : string.
Variable env : ChatRoutes.Services.

Local Abbreviation svc := (ChatRoutes.ollama_service env).

(** X25.  When both exporter calls return, GET /chat/context answers after
    two cache lookups with: total_records equal to the number of records,
    the query echoed, the first 50 records as sample (min(50, n) of them),
    and a note exactly when there are more than 50 records, then
    "Showing 50 of n records". *)
Theorem get_context_response m h d s records :
  DataExporter.get_context_summary (ChatRoutes.lookup_dict env) m h d = inr s ->
  DataExporter.export_to_json (ChatRoutes.lookup_dict env) m h d = inr records ->
  exists resp,
    ChatRoutes.get_context env m h d
    = ([CacheLookup (m, h, d); CacheLookup (m, h, d)], inr resp)
    /\ md_total_records resp = length records
    /\ md_query resp = (m, h, d)
    /\ sample_data resp = take 50 records
    /\ length (sample_data resp) = Nat.min 50 (length records)
    /\ (note resp = None <-> (length records <= 50)%nat)
    /\ ((50 < length records)%nat ->
        note resp = Some ("Showing 50 of " +:+ pretty (length records) +:+ " records")).
Proof.
  intros Hs Hx. eexists. unfold ChatRoutes.get_context, try_except, bind, call, ret.
  rewrite Hs, Hx. cbn -[String.append take]. split; [reflexivity|].
  cbn -[String.append take].
  split_and!; try done.
  - by apply (summary_export_count (ChatRoutes.lookup_dict env) m h d).
  - by rewrite length_take.
  - case_bool_decide; split; try done; lia.
  - intros H. by rewrite bool_decide_true.
Qed.

(** X26.  GET /chat/context checks no range: for any month, hour and
    day_type, a key that is not in the cache gives the answer with 0 records,
    an empty sample and no note. *)
Theorem get_context_missing_key m h d :
  ChatRoutes.lookup_dict env !! (m, h, d) = None ->
  ChatRoutes.get_context env m h d
  = ([CacheLookup (m, h, d); CacheLookup (m, h, d)],
     inr {| md_total_records := 0; md_query := (m, h, d);
            sample_data := []; note := None |}).
Proof.
  intros Hl. unfold ChatRoutes.get_context, try_except, bind, call, ret,
    DataExporter.get_context_summary, DataExporter.export_to_json.
  by rewrite Hl.
Qed.

(** X27.  When [get_context_summary] raises, GET /chat/context raises
    HTTPException 500 "Failed to retrieve context: .." after one cache
    lookup, [export_to_json] not being called; when the summary returns and
    [export_to_json] raises, the same after two lookups. *)
Theorem get_context_failure m h d :
  (forall e,
     DataExporter.get_context_summary (ChatRoutes.lookup_dict env) m h d = inl e ->
     ChatRoutes.get_context env m h d
     = ([CacheLookup (m, h, d)],
        inl (HTTPException 500 ("Failed to retrieve context: " +:+ str_of_exn e))))
  /\ (forall s e,
        DataExporter.get_context_summary (ChatRoutes.lookup_dict env) m h d = inr s ->
        DataExporter.export_to_json (ChatRoutes.lookup_dict env) m h d = inl e ->
        ChatRoutes.get_context env m h d
        = ([CacheLookup (m, h, d); CacheLookup (m, h, d)],
           inl (HTTPException 500 ("Failed to retrieve context: " +:+ str_of_exn e)))).
Proof.
  split.
  - intros e He. unfold ChatRoutes.get_context, try_except, bind, call, ret, raise.
    by rewrite He.
  - intros s e Hs He. unfold ChatRoutes.get_context, try_except, bind, call, ret, raise.
    by rewrite Hs, He.
Qed.

(** *** GET /api/chat/health *)

(** X28.  GET /chat/health always answers with a body, after one manifest
    query: model and timestamp as configured, status ok exactly when the
    configured model is in a returned manifest and degraded otherwise,
    model_loaded likewise, and gpu_available true when model_loaded and
    absent otherwise. *)
Theorem health_route_never_raises :
  exists hr,
    ChatRoutes.check_health OLLAMA_MODEL utcnow_iso env = ([EngineList], inr hr)
    /\ hr_model hr = OLLAMA_MODEL
    /\ hr_timestamp hr = utcnow_iso
    /\ (hr_status hr = "ok" <-> model_available svc)
    /\ (hr_status hr = "ok" \/ hr_status hr = "degraded")
    /\ (hr_model_loaded hr = true <-> model_available svc)
    /\ hr_gpu_available hr = (if hr_model_loaded hr then Some true else None).
Proof.
  unfold ChatRoutes.check_health, try_except, bind.
  rewrite check_health_eq. cbn -[String.append].
  pose proof (health_of_connected svc) as Hc.
  unfold health_of in *.
  destruct (OllamaSpec.manifest (OllamaService.client svc)) as [e|names];
    cbn -[String.append] in *.
  - eexists. split; [reflexivity|]. cbn.
    split_and!; try done; [by rewrite <-Hc|by right|by rewrite <-Hc].
  - destruct (existsb (str_eqb (OllamaService.model svc)) names);
      cbn -[String.append] in *.
    + eexists. split; [reflexivity|]. cbn.
      split_and!; try done; [by rewrite <-Hc|by left|by rewrite <-Hc].
    + eexists. split; [reflexivity|]. cbn.
      split_and!; try done; [by rewrite <-Hc|by right|by rewrite <-Hc].
Qed.

(** X29.  What GET /chat/health reports as ollama_status, by the manifest
    the engine returned ([ManifestSpec.returned_manifest]): connected (no
    error) when it lists the configured model; error when it does not: the
    service's status degraded is not an allowed value of the response model,
    so the body is built in the except branch, with model_loaded false, no
    gpu_available and an error text; disconnected, with the "Cannot connect"
    text, when the manifest query failed; and disconnected as well when the
    query returned something that is no manifest. *)
Theorem health_route_table :
  exists hr,
    ChatRoutes.check_health OLLAMA_MODEL utcnow_iso env = ([EngineList], inr hr)
    /\ (forall names,
          ManifestSpec.returned_manifest (OllamaService.client svc) = Some names ->
          (PStr (OllamaService.model svc) ∈ names ->
             hr_status hr = "ok" /\ hr_ollama_status hr = "connected"
             /\ hr_model_loaded hr = true /\ hr_error hr = None)
          /\ (PStr (OllamaService.model svc) ∉ names ->
             hr_status hr = "degraded" /\ hr_ollama_status hr = "error"
             /\ hr_model_loaded hr = false /\ hr_gpu_available hr = None
             /\ is_Some (hr_error hr)))
    /\ (forall e,
          OllamaService.client_list (OllamaService.client svc) = inl e ->
          hr_status hr = "degraded" /\ hr_ollama_status hr = "disconnected"
          /\ hr_error hr
             = Some ("Cannot connect to Ollama at " +:+ OllamaService.host svc +:+ ": "
                     +:+ str_of_exn e))
    /\ (ManifestSpec.returned_manifest (OllamaService.client svc) = None ->
          hr_status hr = "degraded" /\ hr_ollama_status hr = "disconnected"
          /\ hr_model_loaded hr = false /\ is_Some (hr_error hr)).
Proof.
  unfold ChatRoutes.check_health, try_except, bind.
  rewrite check_health_eq. cbn -[String.append].
  assert (forall e, OllamaService.client_list (OllamaService.client svc) = inl e ->
                    OllamaSpec.manifest (OllamaService.client svc) = inl e) as Hq.
  { intros e He. unfold OllamaSpec.manifest. by rewrite He. }
  setoid_rewrite returned_manifest_iff.
  assert (ManifestSpec.returned_manifest (OllamaService.client svc) = None ->
          exists e, OllamaSpec.manifest (OllamaService.client svc) = inl e) as Hn.
  { intros Hr. destruct (OllamaSpec.manifest _) as [e|names] eqn:E; [by exists e|].
    apply returned_manifest_iff in E. congruence. }
  unfold health_of.
  destruct (OllamaSpec.manifest (OllamaService.client svc)) as [e|names];
    cbn -[String.append].
  - eexists. split; [reflexivity|]. cbn -[String.append]. split_and!.
    + by intros.
    + intros e' [= <-]%Hq. done.
    + intros _. split_and!; done.
  - destruct (existsb (str_eqb (OllamaService.model svc)) names) eqn:E;
      cbn -[String.append].
    + apply existsb_str_eqb in E.
      eexists. split; [reflexivity|]. cbn -[String.append]. split_and!.
      * intros ? [= <-]. split; [done|]. intros Hnot. done.
      * by intros ? ?%Hq.
      * by intros [? ?]%Hn.
    + eexists. split; [reflexivity|]. cbn -[String.append]. split_and!.
      * intros ? [= <-]. split; [|intros _; split_and!; done].
        intros Hin%existsb_str_eqb. congruence.
      * by intros ? ?%Hq.
      * by intros [? ?]%Hn.
Qed.

End OtherRoutesMore.

Lemma request_8_ok : request_ok MoreExamples.request_8.
Proof.
  split; [split_and!|split_and!].
  - vm_compute. discriminate.
  - vm_compute. discriminate.
  - simpl. lia.
  - repeat constructor; simpl; try (vm_compute; discriminate).
  - simpl. lia.
  - simpl. lia.
  - simpl. lia.
  - simpl. lia.
  - left.
Defined.

Lemma engine_available c cache :
  OllamaService.client_list c
  = inr (OllamaService.ListResponse [PStr "qwen2.5:7b"]) ->
  model_available (ChatRoutes.ollama_service (MoreExamples.env_with c cache)).
Proof.
  intros H. exists [PStr "qwen2.5:7b"]. split; [|left].
  unfold OllamaSpec.manifest. cbn. rewrite H. reflexivity.
Defined.

Lemma validate_ChatRequest_accepts_witness :
  accepted (validate_ChatRequest MoreExamples.request_8).
Proof.
  apply (validate_ChatRequest_accepts MoreExamples.request_8). exact request_8_ok.
Defined.

Lemma send_message_unavailable_witness :
  exists detail,
    ChatRoutes.send_message Examples.prompt
      (MoreExamples.env_with Examples.engine_down Examples.cache_AB) MoreExamples.request_8
    = ([EngineList], ChatRoutes.HttpError 503 detail).
Proof.
  eexists.
  apply (send_message_unavailable Examples.prompt
           (MoreExamples.env_with Examples.engine_down Examples.cache_AB)
           MoreExamples.request_8 request_8_ok).
  intros (names & Hm & _). vm_compute in Hm. discriminate.
Defined.

Lemma send_message_summary_failure_witness :
  ChatRoutes.send_message Examples.prompt
    (MoreExamples.env_with Examples.engine MoreExamples.cache_no_lat) MoreExamples.request_8
  = ([EngineList; CacheLookup (202412, 8, "平日")],
     ChatRoutes.HttpError 500 "Failed to generate response: 'lat'").
Proof.
  apply (send_message_summary_failure Examples.prompt
           (MoreExamples.env_with Examples.engine MoreExamples.cache_no_lat)
           MoreExamples.request_8 (KeyError "lat") request_8_ok).
  - by apply engine_available.
  - vm_compute. reflexivity.
Defined.

Lemma send_message_chat_failure_witness :
  exists msgs,
    ChatRoutes.send_message Examples.prompt
      (MoreExamples.env_with MoreExamples.engine_chat_down Examples.cache_AB)
      MoreExamples.request_8
    = ([EngineList; CacheLookup (202412, 8, "平日"); EngineChat "qwen2.5:7b" msgs],
       ChatRoutes.HttpError 500
         "Failed to generate response: Failed to generate response: timed out").
Proof.
  destruct (DataExporter.get_context_summary Examples.cache_AB 202412 8 "平日")
    as [e|s] eqn:Hs; [vm_compute in Hs; discriminate|].
  eexists.
  apply (send_message_chat_failure Examples.prompt
           (MoreExamples.env_with MoreExamples.engine_chat_down Examples.cache_AB)
           MoreExamples.request_8 s (ConnectionError "timed out") request_8_ok).
  - by apply engine_available.
  - exact Hs.
  - reflexivity.
Defined.

Lemma send_message_success_witness :
  exists msgs resp,
    ChatRoutes.send_message Examples.prompt
      (MoreExamples.env_with Examples.engine Examples.cache_AB) MoreExamples.request_8
    = ([EngineList; CacheLookup (202412, 8, "平日"); EngineChat "qwen2.5:7b" msgs],
       ChatRoutes.Http200 resp)
    /\ cr_response resp = "ok".
Proof.
  destruct (DataExporter.get_context_summary Examples.cache_AB 202412 8 "平日")
    as [e|s] eqn:Hs; [vm_compute in Hs; discriminate|].
  eexists _, _. split.
  - apply (send_message_success Examples.prompt
             (MoreExamples.env_with Examples.engine Examples.cache_AB)
             MoreExamples.request_8 s
             (OllamaService.ChatResponse (PStr "ok") {[ "eval_count" := PInt 7 ]}) "ok"
             request_8_ok).
    + by apply engine_available.
    + exact Hs.
    + reflexivity.
    + vm_compute. split; [by eexists|done].
    + reflexivity.
  - reflexivity.
Defined.

Lemma get_context_response_witness :
  exists resp,
    ChatRoutes.get_context Examples.env 202412 8 "平日"
    = ([CacheLookup (202412, 8, "平日"); CacheLookup (202412, 8, "平日")], inr resp)
    /\ md_total_records resp = length (sample_data resp)
    /\ note resp = None.
Proof.
  destruct (DataExporter.get_context_summary Examples.cache_AB 202412 8 "平日")
    as [e|s] eqn:Hs; [vm_compute in Hs; discriminate|].
  destruct (DataExporter.export_to_json Examples.cache_AB 202412 8 "平日")
    as [e|records] eqn:Hx; [vm_compute in Hx; discriminate|].
  destruct (get_context_response Examples.env 202412 8 "平日" s records Hs Hx)
    as (resp & Hr & Hn & _ & Hsd & _ & Hnote & _).
  assert (length records = 2%nat) as Hlen.
  { vm_compute in Hx. injection Hx as <-. reflexivity. }
  exists resp. split; [exact Hr|]. split.
  - rewrite Hn, Hsd, length_take. lia.
  - apply Hnote. lia.
Defined.

Lemma get_context_missing_key_witness :
  ChatRoutes.get_context Examples.env 5 99 "x"
  = ([CacheLookup (5, 99, "x"); CacheLookup (5, 99, "x")],
     inr {| md_total_records := 0; md_query := (5, 99, "x");
            sample_data := []; note := None |}).
Proof.
  apply (get_context_missing_key Examples.env 5 99 "x"). vm_compute. reflexivity.
Defined.

Lemma get_context_failure_witness :
  ChatRoutes.get_context (MoreExamples.env_with Examples.engine MoreExamples.cache_no_lat)
    202412 8 "平日"
  = ([CacheLookup (202412, 8, "平日")],
     inl (HTTPException 500 "Failed to retrieve context: 'lat'")).
Proof.
  apply (proj1 (get_context_failure
                  (MoreExamples.env_with Examples.engine MoreExamples.cache_no_lat)
                  202412 8 "平日") (KeyError "lat")).
  vm_compute. reflexivity.
Defined.

Lemma health_route_table_witness :
  exists hr,
    ChatRoutes.check_health "qwen2.5:7b" "2025-12-17T10:30:00Z"
      (MoreExamples.env_with MoreExamples.engine_other_model Examples.cache_AB)
    = ([EngineList], inr hr)
    /\ hr_status hr = "degraded" /\ hr_ollama_status hr = "error".
Proof.
  destruct (health_route_table "qwen2.5:7b" "2025-12-17T10:30:00Z"
              (MoreExamples.env_with MoreExamples.engine_other_model Examples.cache_AB))
    as (hr & Hh & Hm & _ & _).
  destruct (Hm [PStr "llama3"] eq_refl) as [_ Hd].
  destruct Hd as (H1 & H2 & _).
  - intros Hin. apply elem_of_cons in Hin as [Hin|Hin]; [discriminate|].
    by apply elem_of_nil in Hin.
  - by exists hr.
Defined.

End RouteMore.
